(** * The IRC status client of buildbot (master/buildbot/status/irc.py)

    A shallow embedding of [IrcStatusBot], [IrcStatusFactory] and [IRC],
    and the properties of the specification that are about them.

    Python byte strings are [string]; unicode text is a list of code
    points; the [contacts] dictionary is a [gmap]; every method is a
    computation in a small state, trace and exception monad, the trace
    recording the calls that leave the class (Twisted's [IRCClient] and
    [LoopingCall], the base classes, the contact objects, the log).

    What the module imports is modelled by what it is used for:
    [str.lower] changes the ASCII letters; the codec replaces a code
    point it cannot encode by a question mark; a [LoopingCall] is
    running or not, [start] and [stop] assert that it is in the other
    state; a Python object is identified by a serial number. *)

From Stdlib Require Import ZArith Ascii String.
From stdpp Require Import base option list gmap strings.

Local Open Scope string_scope.
Local Open Scope list_scope.
Local Open Scope Z_scope.

(** ** Python primitives used by the module *)

Module Py.

(** Values that can be handed to a keyword argument. *)
Inductive value : Type :=
| VNone
| VBool (b : bool)
| VInt (z : Z)
| VStr (s : string).

Definition is_bool (v : value) : bool :=
  match v with VBool _ => true | _ => false end.

(** [bool(v)]. *)
Definition truthy (v : value) : bool :=
  match v with
  | VNone => false
  | VBool b => b
  | VInt z => negb (z =? 0)
  | VStr s => negb (String.eqb s "")
  end.

(** [a == b]; [bool] is a subclass of [int], so [True == 1]. *)
Definition equals (a b : value) : bool :=
  match a, b with
  | VNone, VNone => true
  | VBool x, VBool y => Bool.eqb x y
  | VBool x, VInt z | VInt z, VBool x => Z.b2z x =? z
  | VInt x, VInt y => x =? y
  | VStr x, VStr y => String.eqb x y
  | _, _ => false
  end.

(** [v in t] for a tuple [t]. *)
Definition contained_in (v : value) (t : list value) : bool :=
  existsb (equals v) t.

(** [bool(s)] for [s] a string or [None]. *)
Definition truthy_str (s : option string) : bool :=
  match s with
  | Some (String _ _) => true
  | _ => false
  end.

Definition lower_char (c : ascii) : ascii :=
  let n := N_of_ascii c in
  if ((65 <=? n) && (n <=? 90))%N then ascii_of_N (n + 32) else c.

(** [s.lower()] on a byte string. *)
Fixpoint lower (s : string) : string :=
  match s with
  | "" => ""
  | String c s' => String (lower_char c) (lower s')
  end.

(** [s.startswith(p)]. *)
Fixpoint startswith (s p : string) {struct p} : bool :=
  match p, s with
  | "", _ => true
  | String _ _, "" => false
  | String c p', String d s' => Ascii.eqb c d && startswith s' p'
  end.

(** [s[n:]]. *)
Fixpoint slice_from (n : nat) (s : string) : string :=
  match n, s with
  | O, _ => s
  | S _, "" => ""
  | S n', String _ s' => slice_from n' s'
  end.

(** [needle in hay]. *)
Fixpoint contains (needle hay : string) : bool :=
  startswith hay needle ||
  match hay with
  | "" => false
  | String _ hay' => contains needle hay'
  end.

(** [s.split(sep, 1)[0]] for a one-character separator. *)
Fixpoint split_head (sep : ascii) (s : string) : string :=
  match s with
  | "" => ""
  | String c s' => if Ascii.eqb c sep then "" else String c (split_head sep s')
  end.

(** Unicode text, as its code points. *)
Definition unicode : Type := list Z.

Definition byte (z : Z) : ascii := ascii_of_N (Z.to_N (Z.land z 255)).

(** The continuation byte holding bits [6k .. 6k+5] of [cp]. *)
Definition cont (cp : Z) (k : Z) : ascii :=
  byte (Z.lor 128 (Z.land (Z.shiftr cp (6 * k)) 63)).

(** One code point of [text.encode('utf-8', 'replace')]: a code point
    the codec cannot encode (a surrogate, or one out of range) is
    replaced by a question mark. *)
Definition encode_char (cp : Z) : list ascii :=
  if (cp <? 0) || (1114111 <? cp) then ["?"%char]
  else if cp <? 128 then [byte cp]
  else if cp <? 2048 then [byte (Z.lor 192 (Z.shiftr cp 6)); cont cp 0]
  else if (55296 <=? cp) && (cp <=? 57343) then ["?"%char]
  else if cp <? 65536 then
    [byte (Z.lor 224 (Z.shiftr cp 12)); cont cp 1; cont cp 0]
  else [byte (Z.lor 240 (Z.shiftr cp 18)); cont cp 2; cont cp 1; cont cp 0].

Fixpoint encode (text : unicode) : string :=
  match text with
  | [] => ""
  | cp :: text' => string_of_list_ascii (encode_char cp) +:+ encode text'
  end.

Inductive exn : Type :=
| AssertionError (msg : string)
| ConfigErrors (fmt : string) (arg : value)
| RuntimeError (msg : string).

End Py.

(** ** Computations: state, trace of outgoing calls, exceptions *)

Section Eff.
Context {St Ev : Type}.

Definition Eff (A : Type) : Type := St -> (Py.exn + A) * St * list Ev.

Definition ret {A} (a : A) : Eff A := fun s => (inr a, s, []).

Definition bind {A B} (m : Eff A) (k : A -> Eff B) : Eff B :=
  fun s =>
    match m s with
    | (inl e, s1, t1) => (inl e, s1, t1)
    | (inr a, s1, t1) =>
        match k a s1 with
        | (r, s2, t2) => (r, s2, t1 ++ t2)
        end
    end.

Definition get : Eff St := fun s => (inr s, s, []).
Definition put (s : St) : Eff unit := fun _ => (inr tt, s, []).
Definition emit (e : Ev) : Eff unit := fun s => (inr tt, s, [e]).
Definition raise {A} (e : Py.exn) : Eff A := fun s => (inl e, s, []).

(** [for x in xs: body(x)]. *)
Fixpoint for_ {A} (xs : list A) (body : A -> Eff unit) : Eff unit :=
  match xs with
  | [] => ret tt
  | x :: xs' => bind (body x) (fun _ => for_ xs' body)
  end.

Definition result {A} (r : (Py.exn + A) * St * list Ev) : Py.exn + A := r.1.1.
Definition state_of {A} (r : (Py.exn + A) * St * list Ev) : St := r.1.2.
Definition trace_of {A} (r : (Py.exn + A) * St * list Ev) : list Ev := r.2.
End Eff.

Arguments Eff : clear implicits.

Declare Scope eff_scope.
Delimit Scope eff_scope with eff.
Notation "'let*' x ':=' m 'in' k" := (bind m (fun x => k))
  (at level 10, x name, m at level 100, k at level 200) : eff_scope.
Notation "m ;; k" := (bind m (fun _ => k))
  (at level 100, k at level 200, right associativity) : eff_scope.
Local Open Scope eff_scope.

(** ** Contacts, and what the bot calls outside its own class *)

Record Contact : Type := mkContact {
  contact_serial : nat;           (* identity of the Python object *)
  contact_user : option string;
  contact_channel : option string
}.

(** The deferred that [Contact.handleMessage] returns. *)
Inductive Deferred : Type :=
| handled (c : Contact) (message : string).

Inductive call : Type :=
| notice (target payload : string)          (* irc.IRCClient.notice *)
| msg (target payload : string)             (* irc.IRCClient.msg *)
| describe (channel payload : string)       (* irc.IRCClient.describe *)
| join (channel key : option string)        (* irc.IRCClient.join *)
| ping (target : string)                    (* irc.IRCClient.ping *)
| log (line : string)                       (* StatusBot.log *)
| IRCClient_connectionMade
| IRCClient_connectionLost (reason : string)
| LoopingCall_start (interval : Z)
| LoopingCall_stop
| subscribed (c : Contact)                  (* a Contact was constructed *)
| handleMessage (c : Contact) (message : string)
| handleAction (c : Contact) (data : string).

(** An entry of the [channels] option: a name, or a dictionary. *)
Inductive channel_entry : Type :=
| channel_name (c : string)
| channel_dict (c : gmap string string).

(** [twisted.internet.task.LoopingCall], as far as the bot uses it. *)
Record LoopingCall : Type := mkLoopingCall {
  running : bool;
  interval : option Z
}.

Record IrcStatusBot : Type := mkBot {
  nickname : string;
  password : option string;
  channels : list channel_entry;
  pm_to_nicks : list string;
  noticeOnChannel : bool;
  hasQuit : Z;
  keepAliveCall : LoopingCall;
  contacts : gmap (option string * option string) Contact;
  contacts_made : nat;            (* how many Contact objects exist *)
  connected : bool                (* irc.IRCClient holds a transport *)
}.

Definition set_keepAliveCall (k : LoopingCall) (b : IrcStatusBot) : IrcStatusBot :=
  mkBot (nickname b) (password b) (channels b) (pm_to_nicks b)
        (noticeOnChannel b) (hasQuit b) k (contacts b) (contacts_made b)
        (connected b).

Definition set_connected (c : bool) (b : IrcStatusBot) : IrcStatusBot :=
  mkBot (nickname b) (password b) (channels b) (pm_to_nicks b)
        (noticeOnChannel b) (hasQuit b) (keepAliveCall b) (contacts b)
        (contacts_made b) c.

Definition register (k : option string * option string) (c : Contact)
    (b : IrcStatusBot) : IrcStatusBot :=
  mkBot (nickname b) (password b) (channels b) (pm_to_nicks b)
        (noticeOnChannel b) (hasQuit b) (keepAliveCall b)
        (<[k := c]> (contacts b)) (S (contacts_made b)) (connected b).

Module StatusBot.

(** Modelled from the spec: [StatusBot.getContact] of
    buildbot/status/words.py, the base class of the bot, is not among
    the sources. Section 4.3: if an entry exists for the key it is
    returned; otherwise a new Contact is constructed, registered and,
    as a side effect of its construction, subscribed to the build
    events. *)
Definition getContact (user channel : option string)
    : Eff IrcStatusBot call Contact :=
  let* self := get in
  match contacts self !! (channel, user) with
  | Some c => ret c
  | None =>
      let c := mkContact (contacts_made self) user channel in
      put (register (channel, user) c self) ;;
      emit (subscribed c) ;;
      ret c
  end.

End StatusBot.

(** ** IrcStatusBot *)

Module IrcStatusBot.

Definition __init__ (nickname : string) (password : option string)
    (channels : list channel_entry) (pm_to_nicks : list string)
    (noticeOnChannel : bool) : IrcStatusBot :=
  mkBot nickname password channels pm_to_nicks noticeOnChannel 0
        (mkLoopingCall false None) ∅ 0 false.

(** The function the keep-alive call loops on: [self.ping(self.nickname)]. *)
Definition keepAlive_fire : Eff IrcStatusBot call unit :=
  let* self := get in
  if running (keepAliveCall self) then emit (ping (nickname self)) else ret tt.

(** [LoopingCall.start] asserts that the call is not running yet. *)
Definition keepAliveCall_start (i : Z) : Eff IrcStatusBot call unit :=
  let* self := get in
  if running (keepAliveCall self)
  then raise (Py.AssertionError "Tried to start an already running LoopingCall.")
  else put (set_keepAliveCall (mkLoopingCall true (Some i)) self) ;;
       emit (LoopingCall_start i).

(** [LoopingCall.stop] asserts that the call is running. *)
Definition keepAliveCall_stop : Eff IrcStatusBot call unit :=
  let* self := get in
  if negb (running (keepAliveCall self))
  then raise (Py.AssertionError "Tried to stop a LoopingCall that was not running.")
  else
  put (set_keepAliveCall (mkLoopingCall false (interval (keepAliveCall self))) self) ;;
  emit LoopingCall_stop.

Definition connectionMade : Eff IrcStatusBot call unit :=
  (let* self := get in
   put (set_connected true self) ;;
   emit IRCClient_connectionMade) ;;
  keepAliveCall_start 60.

Definition connectionLost (reason : string) : Eff IrcStatusBot call unit :=
  (let* self := get in
   if running (keepAliveCall self) then keepAliveCall_stop else ret tt) ;;
  let* self := get in
  put (set_connected false self) ;;
  emit (IRCClient_connectionLost reason).

Definition groupChat (channel : string) (message : Py.unicode)
    : Eff IrcStatusBot call unit :=
  let* self := get in
  if noticeOnChannel self
  then emit (notice channel (Py.encode message))
  else ret tt.

Definition chat (user : string) (message : Py.unicode)
    : Eff IrcStatusBot call unit :=
  emit (msg user (Py.encode message)).

Definition groupDescribe (channel : string) (action : Py.unicode)
    : Eff IrcStatusBot call unit :=
  emit (describe channel (Py.encode action)).

Definition lower_if_set (s : option string) : option string :=
  if Py.truthy_str s then Py.lower <$> s else s.

Definition getContact (user channel : option string)
    : Eff IrcStatusBot call Contact :=
  StatusBot.getContact (lower_if_set user) (lower_if_set channel).

Definition privmsg (user channel message : string)
    : Eff IrcStatusBot call (option Deferred) :=
  let user := Py.split_head "!" user in
  let* self := get in
  if String.eqb channel (nickname self) then
    let* contact := getContact (Some user) None in
    emit (handleMessage contact message) ;;
    ret (Some (handled contact message))
  else
    let* contact := getContact (Some user) (Some channel) in
    let* self := get in
    if Py.startswith message (nickname self +:+ ":")
       || Py.startswith message (nickname self +:+ ",")
    then
      let message := Py.slice_from (String.length (nickname self +:+ ":")) message in
      emit (handleMessage contact message) ;;
      ret (Some (handled contact message))
    else ret None.

Definition action (user channel data : string)
    : Eff IrcStatusBot call unit :=
  let user := Py.split_head "!" user in
  let* contact := getContact (Some user) (Some channel) in
  let* self := get in
  if Py.contains (nickname self) data
  then emit (handleAction contact data)
  else ret tt.

(** The two branches of [isinstance(c, dict)] in [signedOn]. *)
Definition channel_and_key (c : channel_entry) : option string * option string :=
  match c with
  | channel_dict d => (d !! "channel", d !! "password")
  | channel_name channel => (Some channel, None)
  end.

Definition signedOn : Eff IrcStatusBot call unit :=
  let* self := get in
  (if Py.truthy_str (password self)
   then emit (msg "Nickserv" ("IDENTIFY " +:+ default "" (password self)))
   else ret tt) ;;
  for_ (channels self) (fun c =>
    let '(channel, password) := channel_and_key c in
    emit (join channel password)) ;;
  for_ (pm_to_nicks self) (fun c => getContact (Some c) None ;; ret tt).

Definition joined (channel : string) : Eff IrcStatusBot call unit :=
  emit (log ("I have joined " +:+ channel)) ;;
  getContact None (Some channel) ;;
  ret tt.

Definition left (channel : string) : Eff IrcStatusBot call unit :=
  emit (log ("I have left " +:+ channel)).

Definition kickedFrom (channel kicker message : string)
    : Eff IrcStatusBot call unit :=
  emit (log ("I have been kicked from " +:+ channel +:+ " by " +:+ kicker
             +:+ ": " +:+ message)).

(** What can happen to a bot: the callbacks of the protocol, the
    keep-alive timer firing, and the outbound operations. *)
Inductive input : Type :=
| on_connectionMade
| on_connectionLost (reason : string)
| on_timer
| on_privmsg (user channel message : string)
| on_action (user channel data : string)
| on_signedOn
| on_joined (channel : string)
| on_left (channel : string)
| on_kickedFrom (channel kicker message : string)
| do_groupChat (channel : string) (message : Py.unicode)
| do_chat (user : string) (message : Py.unicode)
| do_groupDescribe (channel : string) (action : Py.unicode).

Definition dispatch (i : input) : Eff IrcStatusBot call unit :=
  match i with
  | on_connectionMade => connectionMade
  | on_connectionLost reason => connectionLost reason
  | on_timer => keepAlive_fire
  | on_privmsg u c m => privmsg u c m ;; ret tt
  | on_action u c d => action u c d
  | on_signedOn => signedOn
  | on_joined c => joined c
  | on_left c => left c
  | on_kickedFrom c k m => kickedFrom c k m
  | do_groupChat c m => groupChat c m
  | do_chat u m => chat u m
  | do_groupDescribe c a => groupDescribe c a
  end.

Definition run (inputs : list input) : Eff IrcStatusBot call unit :=
  for_ inputs dispatch.

(** The order in which the transport drives a protocol: it reports a
    connection only to a protocol that has none. [c] tells whether the
    protocol is connected before the inputs. *)
Fixpoint lifecycle (c : bool) (inputs : list input) : bool :=
  match inputs with
  | [] => true
  | on_connectionMade :: rest => negb c && lifecycle true rest
  | on_connectionLost _ :: rest => lifecycle false rest
  | _ :: rest => lifecycle c rest
  end.

End IrcStatusBot.

(** ** IrcStatusFactory *)

(** What the factory calls outside its own class. The two
    [ThrottledClientFactory] methods are the reconnection path: they
    schedule the next connection attempt. *)
Inductive factory_call : Type :=
| log_msg (line : string)                   (* twisted.python.log.msg *)
| quit (message : string)                   (* self.p.quit *)
| ThrottledClientFactory_clientConnectionLost (connector reason : string)
| ThrottledClientFactory_clientConnectionFailed (connector reason : string).

(** [a or b] on optional lists. *)
Definition or_else {A} (a b : option (list A)) : option (list A) :=
  match a with
  | Some (_ :: _) => a
  | _ => b
  end.

Definition nonempty {A} (a : option (list A)) : bool :=
  match a with
  | Some (_ :: _) => true
  | _ => false
  end.

Module IrcStatusFactory.

Record t : Type := mk {
  lostDelay : option Z;
  failedDelay : option Z;
  status : option string;
  control : option string;
  shuttingDown : bool;
  p : option IrcStatusBot;
  nickname : string;
  password : option string;
  channels : list channel_entry;
  pm_to_nicks : list string;
  tags : option (list string);
  notify_events : gmap string Z;
  noticeOnChannel : bool;
  useRevisions : bool;
  showBlameList : bool;
  useColors : bool;
  allowShutdown : Py.value
}.

Definition set_shuttingDown (b : bool) (f : t) : t :=
  mk (lostDelay f) (failedDelay f) (status f) (control f) b (p f)
     (nickname f) (password f) (channels f) (pm_to_nicks f) (tags f)
     (notify_events f) (noticeOnChannel f) (useRevisions f)
     (showBlameList f) (useColors f) (allowShutdown f).

Definition set_p (b : option IrcStatusBot) (f : t) : t :=
  mk (lostDelay f) (failedDelay f) (status f) (control f) (shuttingDown f) b
     (nickname f) (password f) (channels f) (pm_to_nicks f) (tags f)
     (notify_events f) (noticeOnChannel f) (useRevisions f)
     (showBlameList f) (useColors f) (allowShutdown f).

Definition set_status (st ctl : option string) (f : t) : t :=
  mk (lostDelay f) (failedDelay f) st ctl (shuttingDown f) (p f)
     (nickname f) (password f) (channels f) (pm_to_nicks f) (tags f)
     (notify_events f) (noticeOnChannel f) (useRevisions f)
     (showBlameList f) (useColors f) (allowShutdown f).

Definition __init__ (nickname : string) (password : option string)
    (channels : list channel_entry) (pm_to_nicks : list string)
    (tags : option (list string)) (notify_events : gmap string Z)
    (noticeOnChannel useRevisions showBlameList : bool)
    (lostDelay failedDelay : option Z) (useColors : bool)
    (allowShutdown : Py.value) (categories : option (list string))
    : t * list factory_call :=
  (mk lostDelay failedDelay None None false None nickname password channels
      pm_to_nicks (or_else tags categories) notify_events noticeOnChannel
      useRevisions showBlameList useColors allowShutdown,
   if nonempty categories
   then [log_msg "WARNING: categories are deprecated and should be replaced with 'tags=[cat]'"]
   else []).

Definition shutdown : Eff t factory_call unit :=
  (let* self := get in put (set_shuttingDown true self)) ;;
  let* self := get in
  match p self with
  | Some _ => emit (quit "buildmaster reconfigured: bot disconnecting")
  | None => ret tt
  end.

Definition buildProtocol (address : string) : Eff t factory_call IrcStatusBot :=
  let* self := get in
  let b := IrcStatusBot.__init__ (nickname self) (password self)
             (channels self) (pm_to_nicks self) (noticeOnChannel self) in
  put (set_p (Some b) self) ;;
  ret b.

Definition clientConnectionLost (connector reason : string)
    : Eff t factory_call unit :=
  let* self := get in
  if shuttingDown self
  then emit (log_msg "not scheduling reconnection attempt")
  else emit (ThrottledClientFactory_clientConnectionLost connector reason).

Definition clientConnectionFailed (connector reason : string)
    : Eff t factory_call unit :=
  let* self := get in
  if shuttingDown self
  then emit (log_msg "not scheduling reconnection attempt")
  else emit (ThrottledClientFactory_clientConnectionFailed connector reason).

(** Everything that can happen to a factory: its own methods, and the
    assignments [IRC.setServiceParent] makes to its attributes. *)
Inductive event : Type :=
| call_shutdown
| call_buildProtocol (address : string)
| call_clientConnectionLost (connector reason : string)
| call_clientConnectionFailed (connector reason : string)
| assign_status (status control : option string).

Definition handle (e : event) : Eff t factory_call unit :=
  match e with
  | call_shutdown => shutdown
  | call_buildProtocol a => buildProtocol a ;; ret tt
  | call_clientConnectionLost c r => clientConnectionLost c r
  | call_clientConnectionFailed c r => clientConnectionFailed c r
  | assign_status st ctl => let* self := get in put (set_status st ctl self)
  end.

Definition run (es : list event) : Eff t factory_call unit := for_ es handle.

(** A call on the reconnection path. *)
Definition schedules_reconnect (c : factory_call) : bool :=
  match c with
  | ThrottledClientFactory_clientConnectionLost _ _
  | ThrottledClientFactory_clientConnectionFailed _ _ => true
  | _ => false
  end.

End IrcStatusFactory.

(** ** IRC, the status service *)

Inductive service_call : Type :=
| of_factory (c : factory_call)
| SSLClient (host : string) (port : Z)      (* internet.SSLClient(...) *)
| TCPClient (host : string) (port : Z).     (* internet.TCPClient(...) *)

(** What [setServiceParent] and [stopService] call outside the class,
    and what the base class hands back to them. *)
Inductive attachment_call : Type :=
| by_factory (c : factory_call)
| IControl (master : string)                (* interfaces.IControl(self.master) *)
| StatusReceiverMultiService_setServiceParent (parent : string)
| StatusReceiverMultiService_stopService.

Inductive base_result : Type :=
| returned_by (c : attachment_call).

Module IRC.

Record args : Type := mkArgs {
  arg_host : string;
  arg_nick : string;
  arg_channels : list channel_entry;
  arg_pm_to_nicks : list string;
  arg_port : Z;
  arg_allowForce : Py.value;
  arg_tags : option (list string);
  arg_password : option string;
  arg_notify_events : gmap string Z;
  arg_noticeOnChannel : bool;
  arg_showBlameList : bool;
  arg_useRevisions : bool;
  arg_useSSL : Py.value;
  arg_lostDelay : option Z;
  arg_failedDelay : option Z;
  arg_useColors : bool;
  arg_allowShutdown : Py.value;
  arg_categories : option (list string)
}.

Record t : Type := mk {
  host : string;
  port : Z;
  nick : string;
  channels : list channel_entry;
  pm_to_nicks : list string;
  password : option string;
  allowForce : Py.value;
  useRevisions : bool;
  tags : option (list string);
  notify_events : gmap string Z;
  allowShutdown : Py.value;
  f : IrcStatusFactory.t
}.

Definition set_f (f' : IrcStatusFactory.t) (s : t) : t :=
  mk (host s) (port s) (nick s) (channels s) (pm_to_nicks s) (password s)
     (allowForce s) (useRevisions s) (tags s) (notify_events s)
     (allowShutdown s) f'.

(** Modelled from the spec: [config.error] of buildbot/config.py is not
    among the sources. Section 7: a configuration error is fatal at
    construction and surfaced synchronously, so the call raises. *)
Definition config_error {A} (fmt : string) (arg : Py.value)
    : Eff unit service_call A :=
  raise (Py.ConfigErrors fmt arg).

Definition __init__ (have_ssl : bool) (a : args) : Eff unit service_call t :=
  (if negb (Py.contained_in (arg_allowForce a) [Py.VBool true; Py.VBool false])
   then config_error "allowForce must be boolean, not %r" (arg_allowForce a)
   else ret tt) ;;
  (if negb (Py.contained_in (arg_allowShutdown a) [Py.VBool true; Py.VBool false])
   then config_error "allowShutdown must be boolean, not %r" (arg_allowShutdown a)
   else ret tt) ;;
  let tags := or_else (arg_tags a) (arg_categories a) in
  let '(f, warnings) :=
    IrcStatusFactory.__init__ (arg_nick a) (arg_password a) (arg_channels a)
      (arg_pm_to_nicks a) tags (arg_notify_events a) (arg_noticeOnChannel a)
      (arg_useRevisions a) (arg_showBlameList a) (arg_lostDelay a)
      (arg_failedDelay a) (arg_useColors a) (arg_allowShutdown a) None in
  for_ warnings (fun w => emit (of_factory w)) ;;
  (if Py.truthy (arg_useSSL a)
   then if negb have_ssl
        then raise (Py.RuntimeError "useSSL requires PyOpenSSL")
        else emit (SSLClient (arg_host a) (arg_port a))
   else emit (TCPClient (arg_host a) (arg_port a))) ;;
  ret (mk (arg_host a) (arg_port a) (arg_nick a) (arg_channels a)
          (arg_pm_to_nicks a) (arg_password a) (arg_allowForce a)
          (arg_useRevisions a) tags (arg_notify_events a)
          (arg_allowShutdown a) f).

(** [self.f.status = parent]; then, if [allowForce] is true,
    [self.f.control = interfaces.IControl(self.master)]; then the
    method of the base class, whose result is returned. [master] is the
    attribute [self.master]. *)
Definition setServiceParent (parent master : string)
    : Eff t attachment_call base_result :=
  (let* self := get in
   put (set_f (IrcStatusFactory.set_status (Some parent)
                 (IrcStatusFactory.control (f self)) (f self)) self)) ;;
  (let* self := get in
   if Py.truthy (allowForce self)
   then emit (IControl master) ;;
        put (set_f (IrcStatusFactory.set_status
                      (IrcStatusFactory.status (f self)) (Some master)
                      (f self)) self)
   else ret tt) ;;
  emit (StatusReceiverMultiService_setServiceParent parent) ;;
  ret (returned_by (StatusReceiverMultiService_setServiceParent parent)).

(** [self.f.shutdown()], then the method of the base class, whose
    result is returned. *)
Definition stopService : Eff t attachment_call base_result :=
  (fun self =>
     match IrcStatusFactory.shutdown (f self) with
     | (r, f', calls) => (r, set_f f' self, by_factory <$> calls)
     end) ;;
  emit StatusReceiverMultiService_stopService ;;
  ret (returned_by StatusReceiverMultiService_stopService).

End IRC.

(** * The vocabulary of the properties *)

(** Two characters that are equal, or the two cases of one letter. *)
Definition same_letter (c d : ascii) : Prop :=
  c = d \/
  ((65 <= N_of_ascii c <= 90)%N /\ N_of_ascii d = (N_of_ascii c + 32)%N) \/
  ((65 <= N_of_ascii d <= 90)%N /\ N_of_ascii c = (N_of_ascii d + 32)%N).

(** Two strings that differ only in letter case. *)
Inductive case_variants : string -> string -> Prop :=
| variants_nil : case_variants "" ""
| variants_cons c d s t :
    same_letter c d -> case_variants s t ->
    case_variants (String c s) (String d t).

(** Two optional identifiers that differ only in letter case. *)
Definition same_identity (u1 u2 : option string) : Prop :=
  option_Forall2 case_variants u1 u2.

(** The key under which the registry holds the Contact of a user and a
    channel. *)
Definition key (user channel : option string) : option string * option string :=
  (IrcStatusBot.lower_if_set channel, IrcStatusBot.lower_if_set user).

(** What [getContact] leaves untouched. *)
Definition same_session (b b' : IrcStatusBot) : Prop :=
  nickname b' = nickname b /\ password b' = password b /\
  channels b' = channels b /\ pm_to_nicks b' = pm_to_nicks b /\
  noticeOnChannel b' = noticeOnChannel b /\
  keepAliveCall b' = keepAliveCall b /\ connected b' = connected b.

(** The addressing test of [privmsg]. *)
Definition addressed (b : IrcStatusBot) (message : string) : bool :=
  Py.startswith message (nickname b +:+ ":")
  || Py.startswith message (nickname b +:+ ",").

(** The last loop of [signedOn]. *)
Definition contact_each (nicks : list string) : Eff IrcStatusBot call unit :=
  for_ nicks (fun c => IrcStatusBot.getContact (Some c) None ;; ret tt).

(** The timer runs exactly when the protocol is connected, and then
    with the interval of [connectionMade]. *)
Definition timer_follows (b : IrcStatusBot) : Prop :=
  running (keepAliveCall b) = connected b
  /\ (running (keepAliveCall b) = true -> interval (keepAliveCall b) = Some 60).

(** A trace without a call on the reconnection path. *)
Definition quiet (calls : list factory_call) : Prop :=
  Forall (fun c => IrcStatusFactory.schedules_reconnect c = false) calls.

(** The tuple [(True, False)]. *)
Definition booleans : list Py.value := [Py.VBool true; Py.VBool false].

(** The service a successful construction returns. *)
Definition built (a : IRC.args) : IRC.t :=
  IRC.mk (IRC.arg_host a) (IRC.arg_port a) (IRC.arg_nick a) (IRC.arg_channels a)
    (IRC.arg_pm_to_nicks a) (IRC.arg_password a) (IRC.arg_allowForce a)
    (IRC.arg_useRevisions a) (or_else (IRC.arg_tags a) (IRC.arg_categories a))
    (IRC.arg_notify_events a) (IRC.arg_allowShutdown a)
    (IrcStatusFactory.__init__ (IRC.arg_nick a) (IRC.arg_password a)
       (IRC.arg_channels a) (IRC.arg_pm_to_nicks a)
       (or_else (IRC.arg_tags a) (IRC.arg_categories a))
       (IRC.arg_notify_events a) (IRC.arg_noticeOnChannel a)
       (IRC.arg_useRevisions a) (IRC.arg_showBlameList a) (IRC.arg_lostDelay a)
       (IRC.arg_failedDelay a) (IRC.arg_useColors a) (IRC.arg_allowShutdown a)
       None).1.

(** Sample inputs: a bot named "bb", and the arguments of [IRC] with the
    defaults of its signature but for three flags. *)
Definition bb : IrcStatusBot := IrcStatusBot.__init__ "bb" None [] [] false.

Definition with_flags (allowForce allowShutdown useSSL : Py.value) : IRC.args :=
  IRC.mkArgs "irc.example.org" "bb" [channel_name "#dev"] [] 6667 allowForce None
    None ∅ false true false useSSL None None true allowShutdown None.

(** ** Further vocabulary *)

(** The calls by which a handler turns to a Contact or to the log: the
    construction of a Contact, the hand-over of a text to a Contact,
    and a log line. What a Contact does with the text it is handed,
    replies included, is the Contact's and not recorded here. *)
Definition to_contact_or_log (c : call) : bool :=
  match c with
  | log _ | subscribed _ | handleMessage _ _ | handleAction _ _ => true
  | _ => false
  end.

Definition is_log (c : call) : bool :=
  match c with
  | log _ => true
  | _ => false
  end.

(** The two callbacks that only report: a part and a kick. *)
Definition part_or_kick (i : IrcStatusBot.input) : bool :=
  match i with
  | IrcStatusBot.on_left _ | IrcStatusBot.on_kickedFrom _ _ _ => true
  | _ => false
  end.

(** The callbacks for what the server sends on an open connection. *)
Definition inbound (i : IrcStatusBot.input) : bool :=
  match i with
  | IrcStatusBot.on_privmsg _ _ _ | IrcStatusBot.on_action _ _ _
  | IrcStatusBot.on_joined _ | IrcStatusBot.on_left _
  | IrcStatusBot.on_kickedFrom _ _ _ => true
  | _ => false
  end.



(** What a factory that is not shutting down hands to
    [ThrottledClientFactory] for an event. *)
Definition forwarded (e : IrcStatusFactory.event) : option factory_call :=
  match e with
  | IrcStatusFactory.call_clientConnectionLost c r =>
      Some (ThrottledClientFactory_clientConnectionLost c r)
  | IrcStatusFactory.call_clientConnectionFailed c r =>
      Some (ThrottledClientFactory_clientConnectionFailed c r)
  | _ => None
  end.

Definition is_shutdown (e : IrcStatusFactory.event) : bool :=
  match e with
  | IrcStatusFactory.call_shutdown => true
  | _ => false
  end.

(** The client [IRC.__init__] creates for its arguments. *)
Definition client_of (a : IRC.args) : service_call :=
  if Py.truthy (IRC.arg_useSSL a)
  then SSLClient (IRC.arg_host a) (IRC.arg_port a)
  else TCPClient (IRC.arg_host a) (IRC.arg_port a).

(** * Properties *)

(** ** The string primitives *)

Module PyFacts.
Import Py.

Lemma append_nil (s : string) : "" +:+ s = s.
Proof. reflexivity. Qed.

Lemma append_cons (c : ascii) (s t : string) :
  String c s +:+ t = String c (s +:+ t).
Proof. reflexivity. Qed.

Ltac unroll := rewrite ?append_cons, ?append_nil; simpl.

Lemma startswith_app (p rest : string) : startswith (p +:+ rest) p = true.
Proof.
  induction p as [|c p IH]; unroll; [done|].
  by rewrite Ascii.eqb_refl, IH.
Qed.

(** [s.startswith(p)] holds exactly when [s] is [p] followed by something. *)
Lemma startswith_spec (s p : string) :
  startswith s p = true <-> exists rest, s = p +:+ rest.
Proof.
  split.
  - revert s. induction p as [|c p IH]; intros s H; simpl in *.
    + by exists s.
    + destruct s as [|d s]; [done|].
      apply andb_true_iff in H as [Hc Hp].
      apply Ascii.eqb_eq in Hc as ->.
      destruct (IH _ Hp) as [rest ->]. by exists rest.
  - intros [rest ->]. apply startswith_app.
Qed.

Lemma slice_from_app (p rest : string) :
  slice_from (String.length p) (p +:+ rest) = rest.
Proof. induction p as [|c p IH]; unroll; [by destruct rest|done]. Qed.

Lemma length_snoc (p : string) (c d : ascii) :
  String.length (p +:+ String c "") = String.length (p +:+ String d "").
Proof. induction p as [|x p IH]; unroll; [done|by rewrite IH]. Qed.

Lemma append_assoc (a b c : string) : (a +:+ b) +:+ c = a +:+ b +:+ c.
Proof. induction a as [|x a IH]; unroll; [done|by rewrite IH]. Qed.

Lemma contains_startswith (needle hay : string) :
  startswith hay needle = true -> contains needle hay = true.
Proof. intros H. destruct hay; simpl; by rewrite H. Qed.

(** [needle in hay] holds exactly when [needle] occurs somewhere in [hay]. *)
Lemma contains_spec (needle hay : string) :
  contains needle hay = true <-> exists pre post, hay = pre +:+ needle +:+ post.
Proof.
  split.
  - induction hay as [|c hay IH]; simpl; intros H.
    + rewrite orb_false_r in H. apply startswith_spec in H as [rest ->].
      by exists "", rest.
    + apply orb_true_iff in H as [H|H].
      * apply startswith_spec in H as [rest ->]. by exists "", rest.
      * destruct (IH H) as (pre & post & ->). by exists (String c pre), post.
  - intros (pre & post & ->).
    induction pre as [|c pre IH]; unroll.
    + apply contains_startswith, startswith_app.
    + rewrite IH. apply orb_true_r.
Qed.

Lemma contains_char_cons (sep c : ascii) (s : string) :
  contains (String sep "") (String c s) = Ascii.eqb sep c || contains (String sep "") s.
Proof. simpl. by rewrite andb_true_r. Qed.

(** Splitting at the first separator returns what stands before it. *)
Lemma split_head_app (sep : ascii) (head rest : string) :
  contains (String sep "") head = false ->
  split_head sep (head +:+ String sep rest) = head.
Proof.
  induction head as [|c head IH]; intros H.
  - unroll. by rewrite Ascii.eqb_refl.
  - rewrite contains_char_cons in H.
    apply orb_false_iff in H as [Hc Hh]. unroll.
    rewrite Ascii.eqb_sym, Hc. by rewrite IH.
Qed.
Lemma split_head_without (sep : ascii) (s : string) :
  contains (String sep "") s = false -> split_head sep s = s.
Proof.
  induction s as [|c s IH]; intros H; [done|].
  rewrite contains_char_cons in H.
  apply orb_false_iff in H as [Hc Hh]. simpl.
  rewrite Ascii.eqb_sym, Hc. by rewrite IH.
Qed.

Lemma lower_char_upper (c : ascii) :
  (65 <= N_of_ascii c <= 90)%N ->
  N_of_ascii (lower_char c) = (N_of_ascii c + 32)%N.
Proof.
  intros [H1 H2]. unfold lower_char.
  apply N.leb_le in H1 as H1'. apply N.leb_le in H2 as H2'.
  rewrite H1', H2'. simpl. apply N_ascii_embedding. lia.
Qed.

Lemma lower_char_not_upper (c : ascii) :
  (90 < N_of_ascii c)%N -> lower_char c = c.
Proof.
  intros H. unfold lower_char.
  apply N.leb_gt in H. by rewrite H, andb_false_r.
Qed.

Lemma N_of_ascii_inj (c d : ascii) : N_of_ascii c = N_of_ascii d -> c = d.
Proof.
  intros H. rewrite <- (ascii_N_embedding c), <- (ascii_N_embedding d).
  by rewrite H.
Qed.

Lemma lower_char_same (c d : ascii) :
  same_letter c d -> lower_char c = lower_char d.
Proof.
  intros [->|[[Hc Hd]|[Hd Hc]]]; [done| |].
  - apply N_of_ascii_inj. rewrite (lower_char_upper c Hc).
    rewrite (lower_char_not_upper d); [done|lia].
  - apply N_of_ascii_inj. rewrite (lower_char_upper d Hd).
    rewrite (lower_char_not_upper c); [done|lia].
Qed.

Lemma lower_variants (s t : string) :
  case_variants s t -> lower s = lower t.
Proof.
  induction 1 as [|c d s t Hcd _ IH]; simpl; [done|].
  by rewrite (lower_char_same c d Hcd), IH.
Qed.

End PyFacts.

(** ** Running computations *)

Section Run.
Context {St Ev : Type}.

Lemma bind_ok {A B} (m : Eff St Ev A) (k : A -> Eff St Ev B) s a s1 t1 :
  m s = (inr a, s1, t1) ->
  bind m k s = (result (k a s1), state_of (k a s1), t1 ++ trace_of (k a s1)).
Proof. unfold bind. intros ->. by destruct (k a s1) as [[r s2] t2]. Qed.

Lemma run_eta {A} (r : (Py.exn + A) * St * list Ev) :
  r = (result r, state_of r, trace_of r).
Proof. by destruct r as [[? ?] ?]. Qed.

(** A loop whose body never raises runs to its end, and its trace is
    the concatenation of the traces of the iterations. *)
Lemma for_app {A} (xs ys : list A) (body : A -> Eff St Ev unit) s :
  result (for_ xs body s) = inr tt ->
  for_ (xs ++ ys) body s =
    (result (for_ ys body (state_of (for_ xs body s))),
     state_of (for_ ys body (state_of (for_ xs body s))),
     trace_of (for_ xs body s) ++ trace_of (for_ ys body (state_of (for_ xs body s)))).
Proof.
  revert s. induction xs as [|x xs IH]; intros s H; simpl in *.
  - apply run_eta.
  - unfold bind in *. destruct (body x s) as [[[e|[]] s1] t1]; [done|].
    specialize (IH s1).
    destruct (for_ xs body s1) as [[r2 s2] t2] eqn:E2.
    destruct (for_ (xs ++ ys) body s1) as [[r3 s3] t3] eqn:E3.
    unfold result, state_of, trace_of in *. simpl in *. subst r2.
    specialize (IH eq_refl). injection IH as -> -> ->.
    by rewrite app_assoc.
Qed.

End Run.

(** ** The contact registry *)

Section Registry.
Implicit Types (b : IrcStatusBot) (user channel : option string).

Lemma same_session_refl b : same_session b b.
Proof. by repeat split. Qed.

Lemma same_session_trans b1 b2 b3 :
  same_session b1 b2 -> same_session b2 b3 -> same_session b1 b3.
Proof. unfold same_session. intuition congruence. Qed.

Lemma getContact_eq user channel b :
  IrcStatusBot.getContact user channel b =
    match contacts b !! key user channel with
    | Some c => (inr c, b, [])
    | None =>
        let c := mkContact (contacts_made b) (IrcStatusBot.lower_if_set user)
                   (IrcStatusBot.lower_if_set channel) in
        (inr c, register (key user channel) c b, [subscribed c])
    end.
Proof.
  unfold IrcStatusBot.getContact, StatusBot.getContact, key, bind, get. simpl.
  by destruct (contacts b !! _).
Qed.

(** [getContact] always returns a contact, the one the registry holds
    for the key afterwards; the only call it can make is the
    subscription of a contact it has just constructed. *)
Lemma getContact_ok user channel b :
  exists c,
    IrcStatusBot.getContact user channel b
      = (inr c, state_of (IrcStatusBot.getContact user channel b),
         trace_of (IrcStatusBot.getContact user channel b)) /\
    contacts (state_of (IrcStatusBot.getContact user channel b))
      !! key user channel = Some c /\
    same_session b (state_of (IrcStatusBot.getContact user channel b)) /\
    trace_of (IrcStatusBot.getContact user channel b)
      = match contacts b !! key user channel with
        | Some _ => []
        | None => [subscribed c]
        end.
Proof.
  rewrite getContact_eq.
  destruct (contacts b !! key user channel) as [c|] eqn:E.
  - exists c. simpl. repeat split; done.
  - eexists. simpl. repeat split. unfold register; simpl.
    by rewrite lookup_insert_eq.
Qed.

Lemma getContact_keeps user channel b k c :
  contacts b !! k = Some c ->
  contacts (state_of (IrcStatusBot.getContact user channel b)) !! k = Some c.
Proof.
  intros H. rewrite getContact_eq.
  destruct (contacts b !! key user channel) as [c'|] eqn:E; simpl; [done|].
  rewrite lookup_insert_ne; [done|]. intros <-. congruence.
Qed.
End Registry.

(** ** Outbound messages *)

Lemma groupChat_eq (b : IrcStatusBot) (channel : string) (message : Py.unicode) :
  IrcStatusBot.groupChat channel message b =
    (inr tt, b,
     if noticeOnChannel b then [notice channel (Py.encode message)] else []).
Proof.
  unfold IrcStatusBot.groupChat, bind, get, emit, ret. simpl.
  by destruct (noticeOnChannel b).
Qed.

(** C1, as far as the code goes: with [noticeOnChannel] set, [groupChat]
    sends the encoded text as a notice; with [noticeOnChannel] not set it
    sends nothing at all, neither as a notice nor as a message. *)
Theorem groupChat_notice_or_nothing
    (b : IrcStatusBot) (channel : string) (message : Py.unicode) :
  result (IrcStatusBot.groupChat channel message b) = inr tt
  /\ state_of (IrcStatusBot.groupChat channel message b) = b
  /\ trace_of (IrcStatusBot.groupChat channel message b)
     = (if noticeOnChannel b then [notice channel (Py.encode message)] else [])
  /\ forall target payload,
       msg target payload ∉ trace_of (IrcStatusBot.groupChat channel message b).
Proof.
  rewrite groupChat_eq. repeat split.
  intros target payload. unfold trace_of. simpl.
  destruct (noticeOnChannel b).
  - intros H%list_elem_of_singleton. discriminate.
  - apply not_elem_of_nil.
Qed.

(** With [noticeOnChannel] off, a message for a channel is dropped, where
    [chat] sends the same text to a user with [msg]. *)
Example groupChat_drops_message :
  trace_of (IrcStatusBot.groupChat "#dev" [104; 105]
              (IrcStatusBot.__init__ "bb" None [] [] false)) = []
  /\ trace_of (IrcStatusBot.groupChat "#dev" [104; 105]
              (IrcStatusBot.__init__ "bb" None [] [] true)) = [notice "#dev" "hi"]
  /\ trace_of (IrcStatusBot.chat "alice" [104; 105]
              (IrcStatusBot.__init__ "bb" None [] [] false)) = [msg "alice" "hi"].
Proof. repeat split. Qed.

(** ** Inbound messages *)

Section Inbound.
Implicit Types (b : IrcStatusBot) (user channel message data : string).

Lemma addressed_spec b message :
  addressed b message = true <->
  exists rest, message = nickname b +:+ ":" +:+ rest
               \/ message = nickname b +:+ "," +:+ rest.
Proof.
  unfold addressed. rewrite orb_true_iff, !PyFacts.startswith_spec.
  split.
  - intros [[rest ->]|[rest ->]]; exists rest;
      rewrite PyFacts.append_assoc; auto.
  - intros [rest [->| ->]]; [left|right]; exists rest;
      by rewrite PyFacts.append_assoc.
Qed.

Lemma strip_prefix b (sep : ascii) rest :
  Py.slice_from (String.length (nickname b +:+ ":"))
    (nickname b +:+ String sep rest) = rest.
Proof.
  rewrite (PyFacts.length_snoc _ ":" sep).
  change (String sep rest) with (String sep "" +:+ rest).
  rewrite <- PyFacts.append_assoc. apply PyFacts.slice_from_app.
Qed.

Lemma privmsg_channel_eq b user channel message :
  String.eqb channel (nickname b) = false ->
  let gc := IrcStatusBot.getContact (Some (Py.split_head "!" user)) (Some channel) b in
  forall contact, result gc = inr contact ->
  let text := Py.slice_from (String.length (nickname b +:+ ":")) message in
  IrcStatusBot.privmsg user channel message b =
    if addressed b message
    then (inr (Some (handled contact text)), state_of gc,
          trace_of gc ++ [handleMessage contact text])
    else (inr None, state_of gc, trace_of gc).
Proof.
  intros Hch gc contact Hc text.
  pose proof (run_eta gc) as E. rewrite Hc in E.
  destruct (getContact_ok (Some (Py.split_head "!" user)) (Some channel) b)
    as (c & _ & _ & (Hnick & _) & _).
  fold gc in Hnick.
  unfold IrcStatusBot.privmsg, bind, get, emit, ret. simpl.
  rewrite Hch. fold gc. rewrite E. simpl. rewrite Hnick.
  fold (addressed b message). fold text.
  destruct (addressed b message); simpl; by rewrite ?app_nil_r.
Qed.
End Inbound.

Lemma privmsg_private_eq (b : IrcStatusBot) (user message : string) :
  let gc := IrcStatusBot.getContact (Some (Py.split_head "!" user)) None b in
  forall contact, result gc = inr contact ->
  IrcStatusBot.privmsg user (nickname b) message b
    = (inr (Some (handled contact message)), state_of gc,
       trace_of gc ++ [handleMessage contact message]).
Proof.
  intros gc contact Hres.
  pose proof (run_eta gc) as E. rewrite Hres in E.
  unfold IrcStatusBot.privmsg, bind, get, emit, ret. simpl.
  rewrite String.eqb_refl. fold gc. rewrite E. simpl.
  by rewrite ?app_nil_r.
Qed.

Lemma split_head_parts (sep : ascii) (user : string) :
  exists rest,
    user = Py.split_head sep user +:+ rest
    /\ (rest = "" \/ exists host, rest = String sep host).
Proof.
  induction user as [|x user (rest & E & Hrest)]; simpl.
  - exists "". by split; [|left].
  - destruct (Ascii.eqb x sep) eqn:Ex.
    + apply Ascii.eqb_eq in Ex as ->. exists (String sep user).
      split; [done|]. right. by exists user.
    + exists rest. rewrite PyFacts.append_cons. by rewrite <- E.
Qed.

Lemma split_head_no_sep (sep : ascii) (s : string) :
  Py.contains (String sep "") (Py.split_head sep s) = false.
Proof.
  induction s as [|x s IH]; [done|]. simpl Py.split_head.
  destruct (Ascii.eqb x sep) eqn:E; [done|].
  rewrite PyFacts.contains_char_cons, IH, Ascii.eqb_sym, E. done.
Qed.

Section InboundClaims.
Implicit Types (b : IrcStatusBot) (user channel message data : string).

Lemma getContact_trace_subscribed (u ch : option string) b (x : call) :
  x ∈ trace_of (IrcStatusBot.getContact u ch b) ->
  exists c, x = subscribed c.
Proof.
  destruct (getContact_ok u ch b) as (c & _ & _ & _ & ->).
  destruct (contacts b !! _); [by intros ?%elem_of_nil|].
  intros ->%list_elem_of_singleton. by exists c.
Qed.

(** C3: a channel message is dispatched as a command exactly when it
    starts with the nickname followed by a colon or a comma, and then
    the Contact of (sender, channel) is handed the text after that
    prefix. *)
Theorem privmsg_command_prefix b user channel message :
  channel <> nickname b ->
  exists contact,
    result (IrcStatusBot.getContact (Some (Py.split_head "!" user)) (Some channel) b)
      = inr contact /\
    ((exists rest, message = nickname b +:+ ":" +:+ rest
                   \/ message = nickname b +:+ "," +:+ rest) <->
     (exists c text,
        handleMessage c text ∈ trace_of (IrcStatusBot.privmsg user channel message b))) /\
    (forall rest,
        message = nickname b +:+ ":" +:+ rest
        \/ message = nickname b +:+ "," +:+ rest ->
        result (IrcStatusBot.privmsg user channel message b)
          = inr (Some (handled contact rest)) /\
        trace_of (IrcStatusBot.privmsg user channel message b)
          = trace_of (IrcStatusBot.getContact (Some (Py.split_head "!" user))
                        (Some channel) b)
            ++ [handleMessage contact rest]) /\
    ((forall rest, message <> nickname b +:+ ":" +:+ rest
                   /\ message <> nickname b +:+ "," +:+ rest) ->
     result (IrcStatusBot.privmsg user channel message b) = inr None).
Proof.
  intros Hne. apply String.eqb_neq in Hne.
  destruct (getContact_ok (Some (Py.split_head "!" user)) (Some channel) b)
    as (contact & Hgc & _).
  assert (Hres : result (IrcStatusBot.getContact (Some (Py.split_head "!" user))
                           (Some channel) b) = inr contact) by by rewrite Hgc.
  pose proof (privmsg_channel_eq b user channel message Hne contact Hres) as Heq.
  simpl in Heq.
  exists contact. split; [done|]. split; [|split].
  - split.
    + intros Hpre. apply addressed_spec in Hpre as Ha.
      rewrite Heq, Ha. eexists _, _. unfold trace_of. simpl.
      apply elem_of_app. right. apply list_elem_of_singleton. reflexivity.
    + intros (c & text & Hin). apply addressed_spec.
      rewrite Heq in Hin. destruct (addressed b message); [done|].
      apply getContact_trace_subscribed in Hin as [? ?]. discriminate.
  - intros rest Hrest.
    assert (Ha : addressed b message = true) by (apply addressed_spec; eauto).
    rewrite Heq, Ha.
    assert (Py.slice_from (String.length (nickname b +:+ ":")) message = rest) as ->.
    { destruct Hrest as [-> | ->]; apply strip_prefix. }
    done.
  - intros Hno. rewrite Heq.
    destruct (addressed b message) eqn:Ha; [|done].
    apply addressed_spec in Ha as [rest Hrest].
    destruct (Hno rest) as [H1 H2]. by destruct Hrest.
Qed.

(** C9: on a channel message, [privmsg] resolves the Contact of
    (sender, channel), constructing, registering and subscribing it when
    the registry has none, whether or not the message is addressed to
    the bot. *)
Theorem privmsg_resolves_contact b user channel message :
  channel <> nickname b ->
  let k := key (Some (Py.split_head "!" user)) (Some channel) in
  let r := IrcStatusBot.privmsg user channel message b in
  state_of r
    = state_of (IrcStatusBot.getContact (Some (Py.split_head "!" user)) (Some channel) b)
  /\ is_Some (contacts (state_of r) !! k)
  /\ (contacts b !! k = None ->
      exists c, contacts (state_of r) !! k = Some c
                /\ contact_serial c = contacts_made b
                /\ subscribed c ∈ trace_of r)
  /\ (addressed b message = false ->
      result r = inr None /\
      forall c text, handleMessage c text ∉ trace_of r).
Proof.
  intros Hne k r. apply String.eqb_neq in Hne.
  destruct (getContact_ok (Some (Py.split_head "!" user)) (Some channel) b)
    as (contact & Hgc & Hreg & _ & Htr).
  assert (Hres : result (IrcStatusBot.getContact (Some (Py.split_head "!" user))
                           (Some channel) b) = inr contact) by by rewrite Hgc.
  pose proof (privmsg_channel_eq b user channel message Hne contact Hres) as Heq.
  simpl in Heq. fold r in Heq.
  assert (Hst : state_of r = state_of (IrcStatusBot.getContact
                  (Some (Py.split_head "!" user)) (Some channel) b)).
  { rewrite Heq. by destruct (addressed b message). }
  split; [done|]. rewrite Hst. split; [by eexists|]. split.
  - intros Hnone. exists contact. split; [done|]. fold k in Htr.
    rewrite Hnone in Htr. split.
    + rewrite getContact_eq in Hres. fold k in Hres. rewrite Hnone in Hres.
      by injection Hres as <-.
    + rewrite Heq. destruct (addressed b message); unfold trace_of; simpl;
        fold (trace_of (IrcStatusBot.getContact (Some (Py.split_head "!" user))
                          (Some channel) b)); rewrite Htr.
      * apply elem_of_app. left. by apply list_elem_of_singleton.
      * by apply list_elem_of_singleton.
  - intros Ha. rewrite Heq, Ha. split; [done|].
    intros c text Hin. apply getContact_trace_subscribed in Hin as [? ?].
    discriminate.
Qed.

Lemma action_eq b user channel data :
  let gc := IrcStatusBot.getContact (Some (Py.split_head "!" user)) (Some channel) b in
  forall contact, result gc = inr contact ->
  IrcStatusBot.action user channel data b =
    (inr tt, state_of gc,
     trace_of gc ++
       if Py.contains (nickname b) data then [handleAction contact data] else []).
Proof.
  intros gc contact Hc.
  pose proof (run_eta gc) as E. rewrite Hc in E.
  destruct (getContact_ok (Some (Py.split_head "!" user)) (Some channel) b)
    as (c & _ & _ & (Hnick & _) & _).
  fold gc in Hnick.
  unfold IrcStatusBot.action, bind, get, emit, ret. simpl.
  fold gc. rewrite E. simpl. rewrite Hnick.
  by destruct (Py.contains (nickname b) data).
Qed.

(** C4: an action is handed to the Contact of (sender, channel) exactly
    when the nickname occurs somewhere in its text. *)
Theorem action_substring_dispatch b user channel data :
  let gc := IrcStatusBot.getContact (Some (Py.split_head "!" user)) (Some channel) b in
  exists contact,
    result gc = inr contact /\
    ((exists pre post, data = pre +:+ nickname b +:+ post) <->
     handleAction contact data ∈ trace_of (IrcStatusBot.action user channel data b)) /\
    (forall c text,
        handleAction c text ∈ trace_of (IrcStatusBot.action user channel data b) ->
        c = contact /\ text = data) /\
    forall c text,
      handleMessage c text ∉ trace_of (IrcStatusBot.action user channel data b).
Proof.
  intros gc.
  destruct (getContact_ok (Some (Py.split_head "!" user)) (Some channel) b)
    as (contact & Hgc & _).
  assert (Hres : result gc = inr contact) by (unfold gc; by rewrite Hgc).
  pose proof (action_eq b user channel data contact Hres) as Heq.
  simpl in Heq. fold gc in Heq.
  exists contact. split; [done|]. rewrite Heq. unfold trace_of at 1 3 4. simpl.
  split; [|split].
  - rewrite <- PyFacts.contains_spec. split.
    + intros ->. apply elem_of_app. right. by apply list_elem_of_singleton.
    + intros [Hin|Hin]%elem_of_app.
      * apply getContact_trace_subscribed in Hin as [? ?]. discriminate.
      * destruct (Py.contains (nickname b) data); [done|].
        by apply elem_of_nil in Hin.
  - intros c text [Hin|Hin]%elem_of_app.
    + apply getContact_trace_subscribed in Hin as [? ?]. discriminate.
    + destruct (Py.contains (nickname b) data); [|by apply elem_of_nil in Hin].
      apply list_elem_of_singleton in Hin. by injection Hin as -> ->.
  - intros c text [Hin|Hin]%elem_of_app.
    + apply getContact_trace_subscribed in Hin as [? ?]. discriminate.
    + destruct (Py.contains (nickname b) data); [|by apply elem_of_nil in Hin].
      apply list_elem_of_singleton in Hin. discriminate.
Qed.

(** C10: in [privmsg] and in [action] the sender is cut at its first
    exclamation mark before anything else happens: what is kept is the
    part before that mark, the rest is dropped. So for a nick without
    an exclamation mark, "nick!host" is handled as "nick" is: the same
    result, state and calls, the Contact resolved is the one of the
    nick, filed under the nick in lower case, and it is the one the
    text is handed to. *)
Theorem sender_host_ignored b nick host channel message :
  Py.contains "!" nick = false ->
  Py.split_head "!" (nick +:+ "!" +:+ host) = nick
  /\ (forall user, exists rest,
        user = Py.split_head "!" user +:+ rest
        /\ (rest = "" \/ exists tail, rest = String "!" tail)
        /\ Py.contains "!" (Py.split_head "!" user) = false)
  /\ IrcStatusBot.privmsg (nick +:+ "!" +:+ host) channel message b
    = IrcStatusBot.privmsg nick channel message b
  /\ IrcStatusBot.action (nick +:+ "!" +:+ host) channel message b
    = IrcStatusBot.action nick channel message b
  /\ (exists contact,
        result (IrcStatusBot.getContact (Some nick)
                  (if String.eqb channel (nickname b) then None else Some channel) b)
          = inr contact
        /\ contacts (state_of (IrcStatusBot.privmsg (nick +:+ "!" +:+ host)
                                 channel message b))
             !! (if String.eqb channel (nickname b) then None
                 else Some (Py.lower channel), Some (Py.lower nick))
           = Some contact
        /\ forall c text,
             handleMessage c text
               ∈ trace_of (IrcStatusBot.privmsg (nick +:+ "!" +:+ host)
                             channel message b) ->
             c = contact)
  /\ (exists contact,
        result (IrcStatusBot.getContact (Some nick) (Some channel) b) = inr contact
        /\ contacts (state_of (IrcStatusBot.action (nick +:+ "!" +:+ host)
                                 channel message b))
             !! (Some (Py.lower channel), Some (Py.lower nick)) = Some contact
        /\ forall c text,
             handleAction c text
               ∈ trace_of (IrcStatusBot.action (nick +:+ "!" +:+ host)
                             channel message b) ->
             c = contact).
Proof.
  intros H.
  assert (Hcut : Py.split_head "!" (nick +:+ "!" +:+ host) = nick).
  { change ("!" +:+ host) with (String "!" host).
    apply PyFacts.split_head_app, H. }
  assert (Hnick : Py.split_head "!" nick = nick)
    by apply PyFacts.split_head_without, H.
  assert (Hp : IrcStatusBot.privmsg (nick +:+ "!" +:+ host) channel message b
               = IrcStatusBot.privmsg nick channel message b).
  { unfold IrcStatusBot.privmsg. by rewrite Hcut, Hnick. }
  assert (Ha : IrcStatusBot.action (nick +:+ "!" +:+ host) channel message b
               = IrcStatusBot.action nick channel message b).
  { unfold IrcStatusBot.action. by rewrite Hcut, Hnick. }
  assert (Hkey : forall ch, key (Some nick) ch = (Py.lower <$> ch, Some (Py.lower nick))).
  { intros ch. unfold key. by destruct ch as [[|x ch]|], nick. }
  split; [exact Hcut|]. split.
  { intros user. destruct (split_head_parts "!" user) as (rest & E & Hrest).
    exists rest. split; [done|]. split; [done|apply split_head_no_sep]. }
  split; [exact Hp|]. split; [exact Ha|]. split.
  - rewrite Hp. destruct (String.eqb channel (nickname b)) eqn:E.
    + apply String.eqb_eq in E as ->.
      destruct (getContact_ok (Some nick) None b) as (contact & Hgc & Hreg & _).
      assert (Hres : result (IrcStatusBot.getContact (Some nick) None b) = inr contact)
        by by rewrite Hgc.
      exists contact. split; [done|].
      pose proof (privmsg_private_eq b nick message) as Heq.
      simpl in Heq. rewrite Hnick in Heq. rewrite (Heq contact Hres).
      rewrite Hkey in Hreg. split; [exact Hreg|].
      intros c text [Hin|Hin]%elem_of_app.
      * apply getContact_trace_subscribed in Hin as [? ?]. discriminate.
      * apply list_elem_of_singleton in Hin. by injection Hin as ->.
    + destruct (getContact_ok (Some nick) (Some channel) b)
        as (contact & Hgc & Hreg & _).
      assert (Hres : result (IrcStatusBot.getContact (Some nick) (Some channel) b)
                     = inr contact) by by rewrite Hgc.
      exists contact. split; [done|].
      pose proof (privmsg_channel_eq b nick channel message E) as Heq.
      simpl in Heq. rewrite Hnick in Heq. rewrite (Heq contact Hres).
      rewrite Hkey in Hreg.
      destruct (addressed b message); (split; [exact Hreg|]); intros c text Hin.
      * apply elem_of_app in Hin as [Hin|Hin].
        -- apply getContact_trace_subscribed in Hin as [? ?]. discriminate.
        -- apply list_elem_of_singleton in Hin. by injection Hin as ->.
      * apply getContact_trace_subscribed in Hin as [? ?]. discriminate.
  - rewrite Ha.
    destruct (getContact_ok (Some nick) (Some channel) b)
      as (contact & Hgc & Hreg & _).
    assert (Hres : result (IrcStatusBot.getContact (Some nick) (Some channel) b)
                   = inr contact) by by rewrite Hgc.
    exists contact. split; [done|].
    pose proof (action_eq b nick channel message) as Heq.
    simpl in Heq. rewrite Hnick in Heq. rewrite (Heq contact Hres).
    rewrite Hkey in Hreg. split; [exact Hreg|].
    intros c text [Hin|Hin]%elem_of_app.
    + apply getContact_trace_subscribed in Hin as [? ?]. discriminate.
    + destruct (Py.contains (nickname b) message); [|by apply elem_of_nil in Hin].
      apply list_elem_of_singleton in Hin. by injection Hin as ->.
Qed.
End InboundClaims.

Lemma privmsg_command_prefix_witness :
  "#dev" <> nickname bb /\
  result (IrcStatusBot.privmsg "alice!~a@example.org" "#dev" "bb: status" bb)
    = inr (Some (handled (mkContact 0 (Some "alice") (Some "#dev")) " status")).
Proof.
  split; [discriminate|].
  destruct (privmsg_command_prefix bb "alice!~a@example.org" "#dev" "bb: status")
    as (c & Hc & _ & Hd & _); [discriminate|].
  destruct (Hd " status") as [Hr _]; [by left|].
  rewrite Hr. vm_compute in Hc. by injection Hc as <-.
Defined.

(** The two channel messages of the specification, for the nickname "bb". *)
Example privmsg_bb_status :
  IrcStatusBot.privmsg "alice" "#dev" "bb: status" bb
    = (inr (Some (handled (mkContact 0 (Some "alice") (Some "#dev")) " status")),
       register (Some "#dev", Some "alice") (mkContact 0 (Some "alice") (Some "#dev")) bb,
       [subscribed (mkContact 0 (Some "alice") (Some "#dev"));
        handleMessage (mkContact 0 (Some "alice") (Some "#dev")) " status"])
  /\ result (IrcStatusBot.privmsg "alice" "#dev" "bb status" bb) = inr None
  /\ trace_of (IrcStatusBot.privmsg "alice" "#dev" "bb status" bb)
     = [subscribed (mkContact 0 (Some "alice") (Some "#dev"))]
  /\ result (IrcStatusBot.privmsg "alice" "#dev" "BB: status" bb) = inr None.
Proof. repeat split. Qed.

Lemma privmsg_resolves_contact_witness :
  "#dev" <> nickname bb /\
  is_Some (contacts (state_of (IrcStatusBot.privmsg "alice" "#dev" "bb status" bb))
             !! (Some "#dev", Some "alice")).
Proof.
  split; [discriminate|].
  apply (privmsg_resolves_contact bb "alice" "#dev" "bb status"). discriminate.
Defined.

(** The action of the specification: no prefix, the nickname at the end. *)
Example action_waves_at_bb :
  trace_of (IrcStatusBot.action "alice" "#dev" "waves at bb" bb)
    = [subscribed (mkContact 0 (Some "alice") (Some "#dev"));
       handleAction (mkContact 0 (Some "alice") (Some "#dev")) "waves at bb"]
  /\ trace_of (IrcStatusBot.action "alice" "#dev" "waves" bb)
    = [subscribed (mkContact 0 (Some "alice") (Some "#dev"))].
Proof. repeat split. Qed.

Lemma sender_host_ignored_witness :
  Py.contains "!" "nick" = false /\
  Py.split_head "!" "nick!~user@host" = "nick" /\
  IrcStatusBot.privmsg "nick!~user@host" "#dev" "bb: status" bb
    = IrcStatusBot.privmsg "nick" "#dev" "bb: status" bb
  /\ exists contact,
       contacts (state_of (IrcStatusBot.privmsg "nick!~user@host" "#dev"
                             "bb: status" bb))
         !! (Some "#dev", Some "nick") = Some contact.
Proof.
  split; [reflexivity|].
  destruct (sender_host_ignored bb "nick" "~user@host" "#dev" "bb: status")
    as (Hcut & _ & Hp & _ & (contact & _ & Hreg & _) & _); [reflexivity|].
  split; [exact Hcut|]. split; [exact Hp|]. exists contact. exact Hreg.
Defined.

(** ** Case-insensitive identities *)

Section CaseInsensitive.
Implicit Types (b : IrcStatusBot) (u c : option string).

Lemma lower_if_set_variants u1 u2 :
  same_identity u1 u2 ->
  IrcStatusBot.lower_if_set u1 = IrcStatusBot.lower_if_set u2.
Proof.
  intros [s t H|]; [|done].
  destruct H as [|x y s t Hxy H]; [done|].
  unfold IrcStatusBot.lower_if_set. simpl.
  by rewrite (PyFacts.lower_char_same x y Hxy), (PyFacts.lower_variants s t H).
Qed.

Lemma lower_if_set_lower (s : option string) :
  IrcStatusBot.lower_if_set s = Py.lower <$> s.
Proof. by destruct s as [[|x s]|]. Qed.

Lemma same_letter_lower (x : ascii) : same_letter x (Py.lower_char x).
Proof.
  destruct (decide (65 <= N_of_ascii x <= 90)%N) as [H|H].
  - right. left. split; [done|]. by apply PyFacts.lower_char_upper.
  - left. unfold Py.lower_char.
    destruct (65 <=? N_of_ascii x)%N eqn:E1; [|done].
    destruct (N_of_ascii x <=? 90)%N eqn:E2; [|done].
    apply N.leb_le in E1, E2. lia.
Qed.

Lemma variants_lower (s : string) : case_variants s (Py.lower s).
Proof.
  induction s as [|x s IH]; simpl; constructor; [apply same_letter_lower|done].
Qed.

(** C5: identifiers that differ only in letter case name one Contact,
    because both arguments are put in lower case before the registry is
    asked. The Contact returned is the one the registry then holds
    under the lowered channel and the lowered user: the one it held
    there before, or else a new one that carries the lowered names.
    From any state the calls on two case variants behave alike, and
    made one after the other the second returns the instance the first
    returned, without constructing or registering anything. *)
Theorem getContact_case_insensitive b u1 u2 c1 c2 :
  same_identity u1 u2 -> same_identity c1 c2 ->
  IrcStatusBot.getContact u1 c1 b = IrcStatusBot.getContact u2 c2 b
  /\ (exists contact,
        result (IrcStatusBot.getContact u1 c1 b) = inr contact
        /\ contacts (state_of (IrcStatusBot.getContact u1 c1 b))
             !! (Py.lower <$> c1, Py.lower <$> u1) = Some contact
        /\ contacts (state_of (IrcStatusBot.getContact u1 c1 b))
             !! (Py.lower <$> c2, Py.lower <$> u2) = Some contact
        /\ match contacts b !! (Py.lower <$> c1, Py.lower <$> u1) with
           | Some held =>
               contact = held
               /\ state_of (IrcStatusBot.getContact u1 c1 b) = b
               /\ trace_of (IrcStatusBot.getContact u1 c1 b) = []
           | None =>
               contact = mkContact (contacts_made b) (Py.lower <$> u1)
                           (Py.lower <$> c1)
               /\ trace_of (IrcStatusBot.getContact u1 c1 b) = [subscribed contact]
           end)
  /\ IrcStatusBot.getContact u2 c2 (state_of (IrcStatusBot.getContact u1 c1 b))
     = (result (IrcStatusBot.getContact u1 c1 b),
        state_of (IrcStatusBot.getContact u1 c1 b), [])
  /\ Py.lower <$> u1 = Py.lower <$> u2
  /\ Py.lower <$> c1 = Py.lower <$> c2
  /\ (forall s, case_variants s (Py.lower s)).
Proof.
  intros Hu Hc.
  assert (Hk : key u1 c1 = key u2 c2).
  { unfold key. by rewrite (lower_if_set_variants _ _ Hu),
                           (lower_if_set_variants _ _ Hc). }
  assert (Hlu : Py.lower <$> u1 = Py.lower <$> u2).
  { rewrite <- !lower_if_set_lower. by apply lower_if_set_variants. }
  assert (Hlc : Py.lower <$> c1 = Py.lower <$> c2).
  { rewrite <- !lower_if_set_lower. by apply lower_if_set_variants. }
  assert (Hkey : key u1 c1 = (Py.lower <$> c1, Py.lower <$> u1)).
  { unfold key. by rewrite !lower_if_set_lower. }
  split; [|split; [|split; [|split; [done|split; [done|apply variants_lower]]]]].
  - rewrite !getContact_eq, Hk.
    by rewrite (lower_if_set_variants _ _ Hu), (lower_if_set_variants _ _ Hc).
  - destruct (getContact_ok u1 c1 b) as (contact & Hgc & Hreg & _ & Htr).
    exists contact. rewrite <- Hlu, <- Hlc, <- Hkey.
    split; [by rewrite Hgc|]. split; [done|]. split; [done|].
    assert (Hres : result (IrcStatusBot.getContact u1 c1 b) = inr contact)
      by by rewrite Hgc.
    rewrite Htr. rewrite getContact_eq in Hres |- *.
    destruct (contacts b !! key u1 c1) as [held|]; simpl in *.
    + by injection Hres as <-.
    + injection Hres as <-. by rewrite !lower_if_set_lower.
  - destruct (getContact_ok u1 c1 b) as (contact & Hgc & Hreg & _).
    rewrite (getContact_eq u2 c2), <- Hk, Hreg. by rewrite Hgc at 2.
Qed.
End CaseInsensitive.

Lemma Alice_alice : case_variants "Alice" "alice".
Proof.
  constructor; [right; left; by vm_compute|].
  repeat (constructor; [by left|]). constructor.
Qed.

Lemma getContact_case_insensitive_witness :
  same_identity (Some "Alice") (Some "alice") /\ same_identity None None /\
  IrcStatusBot.getContact (Some "Alice") None bb
    = IrcStatusBot.getContact (Some "alice") None bb
  /\ exists contact,
       result (IrcStatusBot.getContact (Some "Alice") None bb) = inr contact
       /\ contacts (state_of (IrcStatusBot.getContact (Some "Alice") None bb))
            !! (None, Some "alice") = Some contact.
Proof.
  assert (H1 : same_identity (Some "Alice") (Some "alice"))
    by (constructor; apply Alice_alice).
  assert (H2 : same_identity None None) by constructor.
  split; [done|]. split; [done|].
  destruct (getContact_case_insensitive bb _ _ _ _ H1 H2)
    as (He & (contact & Hr & Hreg & _) & _).
  split; [exact He|]. exists contact. split; [exact Hr|exact Hreg].
Defined.

(** ** Signing on *)

Section SignedOn.
Implicit Types (b : IrcStatusBot).

Lemma getContact_other (u c : option string) b k :
  k <> key u c ->
  contacts (state_of (IrcStatusBot.getContact u c b)) !! k = contacts b !! k.
Proof.
  intros Hk. rewrite getContact_eq.
  destruct (contacts b !! key u c) as [x|]; simpl; [done|].
  by rewrite lookup_insert_ne.
Qed.

Lemma contact_each_cons n nicks b :
  contact_each (n :: nicks) b =
    (result (contact_each nicks (state_of (IrcStatusBot.getContact (Some n) None b))),
     state_of (contact_each nicks (state_of (IrcStatusBot.getContact (Some n) None b))),
     trace_of (IrcStatusBot.getContact (Some n) None b)
       ++ trace_of (contact_each nicks (state_of (IrcStatusBot.getContact (Some n) None b)))).
Proof.
  destruct (getContact_ok (Some n) None b) as (c & Hgc & _).
  unfold contact_each. simpl. fold (contact_each nicks).
  rewrite (bind_ok _ _ b tt (state_of (IrcStatusBot.getContact (Some n) None b))
             (trace_of (IrcStatusBot.getContact (Some n) None b))); [done|].
  rewrite (bind_ok _ _ _ _ _ _ Hgc). unfold ret. simpl. by rewrite app_nil_r.
Qed.

Lemma contact_each_ok nicks b :
  result (contact_each nicks b) = inr tt
  /\ same_session b (state_of (contact_each nicks b))
  /\ (forall x, x ∈ trace_of (contact_each nicks b) -> exists c, x = subscribed c)
  /\ (forall k c, contacts b !! k = Some c ->
                  contacts (state_of (contact_each nicks b)) !! k = Some c)
  /\ (forall n, n ∈ nicks ->
        is_Some (contacts (state_of (contact_each nicks b)) !! key (Some n) None))
  /\ (forall n, n ∈ nicks -> contacts b !! key (Some n) None = None ->
        exists c, subscribed c ∈ trace_of (contact_each nicks b)
                  /\ contact_user c = IrcStatusBot.lower_if_set (Some n)
                  /\ contact_channel c = None).
Proof.
  revert b. induction nicks as [|n nicks IH]; intros b.
  - repeat split; try done.
    + intros x Hx. by apply elem_of_nil in Hx.
    + intros n Hn. by apply elem_of_nil in Hn.
    + intros n Hn. by apply elem_of_nil in Hn.
  - rewrite contact_each_cons.
    destruct (getContact_ok (Some n) None b) as (c & Hgc & Hreg & Hsame & Htr).
    set (b1 := state_of (IrcStatusBot.getContact (Some n) None b)) in *.
    destruct (IH b1) as (Hr & Hs & Hsub & Hkeep & Hall & Hnew).
    unfold result, state_of, trace_of at 1 2. simpl.
    fold (result (contact_each nicks b1)) (state_of (contact_each nicks b1)).
    split; [done|]. split; [by eapply same_session_trans|].
    split; [|split; [|split]].
    + intros x [Hx|Hx]%elem_of_app; [|by apply Hsub].
      by apply getContact_trace_subscribed in Hx.
    + intros k c' Hk. apply Hkeep. by apply getContact_keeps.
    + intros m [->|Hm]%elem_of_cons; [|by apply Hall].
      exists c. by apply Hkeep.
    + intros m Hm Hnone.
      destruct (decide (key (Some m) None = key (Some n) None)) as [Heq|Hneq].
      * rewrite <- Heq, Hnone in Htr. exists c. split.
        { apply elem_of_app. left. rewrite Htr. by apply list_elem_of_singleton. }
        assert (Hres : result (IrcStatusBot.getContact (Some n) None b) = inr c)
          by by rewrite Hgc.
        rewrite getContact_eq, <- Heq, Hnone in Hres.
        injection Hres as <-. simpl.
        unfold key in Heq. by injection Heq as <-.
      * apply elem_of_cons in Hm as [->|Hm]; [done|].
        destruct (Hnew m Hm) as (c' & Hin & Hc').
        { unfold b1. by rewrite getContact_other. }
        exists c'. split; [|done]. apply elem_of_app. by right.
Qed.

Lemma signedOn_eq b :
  IrcStatusBot.signedOn b =
    (result (contact_each (pm_to_nicks b) b),
     state_of (contact_each (pm_to_nicks b) b),
     (if Py.truthy_str (password b)
      then [msg "Nickserv" ("IDENTIFY " +:+ default "" (password b))]
      else [])
     ++ ((fun c => join (IrcStatusBot.channel_and_key c).1
                        (IrcStatusBot.channel_and_key c).2) <$> channels b)
     ++ trace_of (contact_each (pm_to_nicks b) b)).
Proof.
  unfold IrcStatusBot.signedOn. fold (contact_each (pm_to_nicks b)).
  assert (Hjoin : forall s : IrcStatusBot,
    for_ (channels b)
      (fun c => let '(channel, password) := IrcStatusBot.channel_and_key c in
                emit (join channel password)) s
    = (inr tt, s, (fun c => join (IrcStatusBot.channel_and_key c).1
                                 (IrcStatusBot.channel_and_key c).2) <$> channels b)).
  { intros s. induction (channels b) as [|c cs IH]; simpl; [done|].
    unfold bind at 1. destruct (IrcStatusBot.channel_and_key c) as [ch pw].
    unfold emit at 1. by rewrite IH. }
  unfold bind at 1, get. simpl.
  destruct (Py.truthy_str (password b)); unfold bind at 1, emit at 1, ret at 1;
    simpl; rewrite (bind_ok _ _ _ _ _ _ (Hjoin b)); done.
Qed.

(** C6: [signedOn] first identifies to Nickserv, when a password is
    set, then joins the channels in the order of the list, with the key
    of each entry that has one, and then sees to it that every
    private-message target has its Contact; it calls nothing else. *)
Theorem signedOn_order b :
  exists creations,
    IrcStatusBot.signedOn b =
      (inr tt, state_of (IrcStatusBot.signedOn b),
       (if Py.truthy_str (password b)
        then [msg "Nickserv" ("IDENTIFY " +:+ default "" (password b))]
        else [])
       ++ ((fun c => join (IrcStatusBot.channel_and_key c).1
                          (IrcStatusBot.channel_and_key c).2) <$> channels b)
       ++ creations)
    /\ (forall name, IrcStatusBot.channel_and_key (channel_name name)
                     = (Some name, None))
    /\ (forall d, IrcStatusBot.channel_and_key (channel_dict d)
                  = (d !! "channel", d !! "password"))
    /\ (forall x, x ∈ creations -> exists c, x = subscribed c)
    /\ (forall n, n ∈ pm_to_nicks b ->
          is_Some (contacts (state_of (IrcStatusBot.signedOn b)) !! key (Some n) None))
    /\ (forall n, n ∈ pm_to_nicks b -> contacts b !! key (Some n) None = None ->
          exists c, subscribed c ∈ creations
                    /\ contact_user c = IrcStatusBot.lower_if_set (Some n)
                    /\ contact_channel c = None).
Proof.
  exists (trace_of (contact_each (pm_to_nicks b) b)).
  destruct (contact_each_ok (pm_to_nicks b) b) as (Hr & _ & Hsub & _ & Hall & Hnew).
  rewrite signedOn_eq. unfold state_of at 1 2. simpl.
  fold (state_of (contact_each (pm_to_nicks b) b)). rewrite Hr.
  repeat split; try done.
Qed.
End SignedOn.

(** A bot with a password, two channels, one of them with a key, and
    three private-message targets, two of which are one identity. *)
Example signedOn_sample :
  trace_of (IrcStatusBot.signedOn
    (IrcStatusBot.__init__ "bb" (Some "secret")
       [channel_name "#dev"; channel_dict {["channel" := "#ops"; "password" := "k"]}]
       ["Alice"; "bob"; "alice"] false))
  = [msg "Nickserv" "IDENTIFY secret";
     join (Some "#dev") None;
     join (Some "#ops") (Some "k");
     subscribed (mkContact 0 (Some "alice") None);
     subscribed (mkContact 1 (Some "bob") None)].
Proof. vm_compute. reflexivity. Qed.

(** ** The keep-alive timer *)

Section KeepAlive.
Implicit Types (b : IrcStatusBot).

Lemma connectionMade_eq b :
  running (keepAliveCall b) = false ->
  IrcStatusBot.connectionMade b =
    (inr tt,
     set_keepAliveCall (mkLoopingCall true (Some 60)) (set_connected true b),
     [IRCClient_connectionMade; LoopingCall_start 60]).
Proof.
  intros H. unfold IrcStatusBot.connectionMade, IrcStatusBot.keepAliveCall_start,
    bind, get, put, emit, raise. simpl. by rewrite H.
Qed.

Lemma connectionLost_eq reason b :
  IrcStatusBot.connectionLost reason b =
    (inr tt,
     set_connected false
       (if running (keepAliveCall b)
        then set_keepAliveCall (mkLoopingCall false (interval (keepAliveCall b))) b
        else b),
     (if running (keepAliveCall b) then [LoopingCall_stop] else [])
     ++ [IRCClient_connectionLost reason]).
Proof.
  unfold IrcStatusBot.connectionLost, IrcStatusBot.keepAliveCall_stop,
    bind, get, put, emit, ret, raise. simpl.
  destruct (running (keepAliveCall b)) eqn:E; simpl; [by rewrite E|done].
Qed.

Lemma privmsg_session user channel message b :
  exists d, result (IrcStatusBot.privmsg user channel message b) = inr d
  /\ same_session b (state_of (IrcStatusBot.privmsg user channel message b)).
Proof.
  unfold IrcStatusBot.privmsg, bind, get, emit, ret. simpl.
  destruct (String.eqb channel (nickname b));
    rewrite getContact_eq; destruct (contacts b !! _); simpl;
    repeat match goal with |- context [if ?c then _ else _] => destruct c end;
    simpl; eexists; (split; [reflexivity|by repeat split]).
Qed.

(** Every input but the two connection callbacks leaves the timer and
    the connection as they are, and does not raise. *)
Lemma dispatch_session (i : IrcStatusBot.input) b :
  i <> IrcStatusBot.on_connectionMade ->
  (forall reason, i <> IrcStatusBot.on_connectionLost reason) ->
  result (IrcStatusBot.dispatch i b) = inr tt
  /\ same_session b (state_of (IrcStatusBot.dispatch i b)).
Proof.
  intros Hmade Hlost. destruct i; simpl.
  - done.
  - by destruct (Hlost reason).
  - unfold IrcStatusBot.keepAlive_fire, bind, get, emit, ret. simpl.
    destruct (running (keepAliveCall b)); split; try done; apply same_session_refl.
  - destruct (privmsg_session user channel message b) as (d & Hd & Hs).
    pose proof (run_eta (IrcStatusBot.privmsg user channel message b)) as E.
    rewrite Hd in E. by rewrite (bind_ok _ _ _ _ _ _ E).
  - destruct (getContact_ok (Some (Py.split_head "!" user)) (Some channel) b)
      as (c & Hgc & _ & Hs & _).
    assert (Hres : result (IrcStatusBot.getContact (Some (Py.split_head "!" user))
                             (Some channel) b) = inr c) by by rewrite Hgc.
    by rewrite (action_eq b user channel data c Hres).
  - rewrite signedOn_eq.
    by destruct (contact_each_ok (pm_to_nicks b) b) as (Hr & Hs & _).
  - unfold IrcStatusBot.joined, bind, emit, ret. simpl.
    rewrite getContact_eq. destruct (contacts b !! _); simpl;
      (split; [done|by repeat split]).
  - split; [reflexivity|apply same_session_refl].
  - split; [reflexivity|apply same_session_refl].
  - rewrite groupChat_eq. split; [done|apply same_session_refl].
  - split; [reflexivity|apply same_session_refl].
  - split; [reflexivity|apply same_session_refl].
Qed.

Lemma dispatch_timer (i : IrcStatusBot.input) b :
  timer_follows b -> IrcStatusBot.lifecycle (connected b) [i] = true ->
  result (IrcStatusBot.dispatch i b) = inr tt
  /\ timer_follows (state_of (IrcStatusBot.dispatch i b))
  /\ nickname (state_of (IrcStatusBot.dispatch i b)) = nickname b
  /\ forall rest,
       IrcStatusBot.lifecycle (connected (state_of (IrcStatusBot.dispatch i b))) rest
       = IrcStatusBot.lifecycle (connected b) (i :: rest).
Proof.
  intros [Hrun Hint] Hlife.
  destruct i.
  { simpl in Hlife. rewrite andb_true_r in Hlife.
    apply negb_true_iff in Hlife. rewrite Hlife in Hrun.
    simpl. rewrite (connectionMade_eq b Hrun). simpl.
    by rewrite Hlife. }
  { simpl. rewrite connectionLost_eq.
    unfold result, state_of, timer_follows.
    destruct (running (keepAliveCall b)) eqn:E; simpl; rewrite ?E;
      repeat split; done. }
  all: match goal with |- context [IrcStatusBot.dispatch ?i ?s] =>
         destruct (dispatch_session i s) as (Hr & Hn & _ & _ & _ & _ & Hk & Hc);
         [done|done|] end;
       unfold timer_follows; rewrite Hr, Hk, Hc, Hn; repeat split; try done.
Qed.

Lemma run_timer (inputs : list IrcStatusBot.input) b :
  timer_follows b -> IrcStatusBot.lifecycle (connected b) inputs = true ->
  result (IrcStatusBot.run inputs b) = inr tt
  /\ timer_follows (state_of (IrcStatusBot.run inputs b))
  /\ nickname (state_of (IrcStatusBot.run inputs b)) = nickname b.
Proof.
  revert b. induction inputs as [|i inputs IH]; intros b Hinv Hlife; [done|].
  assert (Hi : IrcStatusBot.lifecycle (connected b) [i] = true).
  { destruct i; simpl in *; try done.
    apply andb_true_iff in Hlife as [-> _]. done. }
  destruct (dispatch_timer i b Hinv Hi) as (Hr & Hinv' & Hn & Hrest).
  unfold IrcStatusBot.run. simpl. fold (IrcStatusBot.run inputs).
  pose proof (run_eta (IrcStatusBot.dispatch i b)) as E. rewrite Hr in E.
  rewrite (bind_ok _ _ _ _ _ _ E).
  destruct (IH _ Hinv') as (Hr2 & Hinv2 & Hn2); [by rewrite Hrest|].
  repeat split; try done; try apply Hinv2. by rewrite <- Hn.
Qed.

(** C7: [connectionMade] starts the probe with an interval of 60,
    [connectionLost] leaves it stopped whatever the reason and whatever
    the state, and along every run of a bot the probe is running
    exactly when the bot is connected; when it fires it pings the
    bot's own nickname. *)
Theorem keepAlive_runs_while_connected b :
  (running (keepAliveCall b) = false ->
   IrcStatusBot.connectionMade b =
     (inr tt,
      set_keepAliveCall (mkLoopingCall true (Some 60)) (set_connected true b),
      [IRCClient_connectionMade; LoopingCall_start 60]))
  /\ (forall reason,
        result (IrcStatusBot.connectionLost reason b) = inr tt
        /\ running (keepAliveCall (state_of (IrcStatusBot.connectionLost reason b))) = false
        /\ connected (state_of (IrcStatusBot.connectionLost reason b)) = false
        /\ (running (keepAliveCall b) = true ->
            LoopingCall_stop ∈ trace_of (IrcStatusBot.connectionLost reason b))
        /\ trace_of (IrcStatusBot.keepAlive_fire
                       (state_of (IrcStatusBot.connectionLost reason b))) = [])
  /\ (forall inputs,
        timer_follows b ->
        IrcStatusBot.lifecycle (connected b) inputs = true ->
        result (IrcStatusBot.run inputs b) = inr tt
        /\ timer_follows (state_of (IrcStatusBot.run inputs b))
        /\ trace_of (IrcStatusBot.keepAlive_fire (state_of (IrcStatusBot.run inputs b)))
           = if connected (state_of (IrcStatusBot.run inputs b))
             then [ping (nickname b)] else []).
Proof.
  split; [apply connectionMade_eq|]. split.
  - intros reason. rewrite connectionLost_eq.
    unfold IrcStatusBot.keepAlive_fire, bind, get, emit, ret,
      result, state_of, trace_of.
    destruct (running (keepAliveCall b)) eqn:E; simpl; rewrite ?E;
      repeat split; try done.
    intros _. apply elem_of_cons. by left.
  - intros inputs Hinv Hlife.
    destruct (run_timer inputs b Hinv Hlife) as (Hr & [Hrun Hint] & Hn).
    split; [done|]. split; [done|].
    unfold IrcStatusBot.keepAlive_fire, bind, get, emit, ret, trace_of. simpl.
    fold (state_of (IrcStatusBot.run inputs b)).
    rewrite Hrun, Hn.
    destruct (connected (state_of (IrcStatusBot.run inputs b))); reflexivity.
Qed.
End KeepAlive.

Lemma keepAlive_runs_while_connected_witness :
  timer_follows bb
  /\ IrcStatusBot.lifecycle (connected bb)
       [IrcStatusBot.on_connectionMade;
        IrcStatusBot.on_privmsg "alice" "#dev" "bb: status";
        IrcStatusBot.on_connectionLost "connection reset by peer"] = true
  /\ running (keepAliveCall (state_of (IrcStatusBot.run
       [IrcStatusBot.on_connectionMade;
        IrcStatusBot.on_privmsg "alice" "#dev" "bb: status";
        IrcStatusBot.on_connectionLost "connection reset by peer"] bb)))
     = connected (state_of (IrcStatusBot.run
       [IrcStatusBot.on_connectionMade;
        IrcStatusBot.on_privmsg "alice" "#dev" "bb: status";
        IrcStatusBot.on_connectionLost "connection reset by peer"] bb)).
Proof.
  assert (H : timer_follows bb) by (split; [reflexivity|discriminate]).
  split; [exact H|]. split; [reflexivity|].
  destruct (keepAlive_runs_while_connected bb) as (_ & _ & Hrun).
  apply (Hrun _ H). reflexivity.
Defined.

(** A connection that is made and then lost: the calls in order. *)
Example connection_sample :
  trace_of (IrcStatusBot.run
    [IrcStatusBot.on_connectionMade; IrcStatusBot.on_timer;
     IrcStatusBot.on_connectionLost "connection reset by peer";
     IrcStatusBot.on_timer] bb)
  = [IRCClient_connectionMade; LoopingCall_start 60; ping "bb";
     LoopingCall_stop; IRCClient_connectionLost "connection reset by peer"].
Proof. reflexivity. Qed.

(** ** Shutting the factory down *)

Section Shutdown.
Import IrcStatusFactory.
Implicit Types (f : IrcStatusFactory.t).

Lemma shutdown_eq f :
  shutdown f =
    (inr tt, set_shuttingDown true f,
     match p f with
     | Some _ => [quit "buildmaster reconfigured: bot disconnecting"]
     | None => []
     end).
Proof. unfold shutdown, bind, get, put, emit, ret. simpl. by destruct (p f). Qed.

(** Once the flag is set no event clears it, and none reaches the
    reconnection path. *)
Lemma handle_shuttingDown (e : event) f :
  shuttingDown f = true ->
  result (handle e f) = inr tt
  /\ shuttingDown (state_of (handle e f)) = true
  /\ quiet (trace_of (handle e f)).
Proof.
  intros H. destruct e; simpl.
  - rewrite shutdown_eq. repeat split. destruct (p f); repeat constructor.
  - repeat split; [done|constructor].
  - unfold clientConnectionLost, bind, get. simpl. rewrite H.
    repeat split; [done|repeat constructor].
  - unfold clientConnectionFailed, bind, get. simpl. rewrite H.
    repeat split; [done|repeat constructor].
  - repeat split; [done|constructor].
Qed.

Lemma handle_total (e : event) f : result (handle e f) = inr tt.
Proof.
  destruct e; simpl; try done.
  - by rewrite shutdown_eq.
  - unfold clientConnectionLost, bind, get. simpl. by destruct (shuttingDown f).
  - unfold clientConnectionFailed, bind, get. simpl. by destruct (shuttingDown f).
Qed.

Lemma run_total (es : list event) f : result (run es f) = inr tt.
Proof.
  revert f. induction es as [|e es IH]; intros f; [done|].
  unfold run. simpl. fold (run es).
  pose proof (run_eta (handle e f)) as E. rewrite handle_total in E.
  rewrite (bind_ok _ _ _ _ _ _ E). apply IH.
Qed.

Lemma run_shuttingDown (es : list event) f :
  shuttingDown f = true ->
  shuttingDown (state_of (run es f)) = true /\ quiet (trace_of (run es f)).
Proof.
  revert f. induction es as [|e es IH]; intros f H.
  - split; [done|constructor].
  - destruct (handle_shuttingDown e f H) as (Hr & Hs & Hq).
    unfold run. simpl. fold (run es).
    pose proof (run_eta (handle e f)) as E. rewrite Hr in E.
    rewrite (bind_ok _ _ _ _ _ _ E).
    destruct (IH _ Hs) as [Hs' Hq'].
    split; [done|]. by apply Forall_app.
Qed.

(** C2: [shutdown] sets [shuttingDown], a second call leaves the
    factory as the first left it, and in every run of the factory
    nothing after a [shutdown] reaches the reconnection path of
    [ThrottledClientFactory]: a lost or failed connection is then only
    logged. *)
Theorem shutdown_stops_reconnecting f :
  shuttingDown (state_of (shutdown f)) = true
  /\ state_of (shutdown (state_of (shutdown f))) = state_of (shutdown f)
  /\ (forall connector reason,
        trace_of (clientConnectionLost connector reason (state_of (shutdown f)))
          = [log_msg "not scheduling reconnection attempt"]
        /\ trace_of (clientConnectionFailed connector reason (state_of (shutdown f)))
          = [log_msg "not scheduling reconnection attempt"])
  /\ (forall before after,
        exists s calls,
          run (before ++ [call_shutdown]) f
            = (inr tt, s, trace_of (run (before ++ [call_shutdown]) f))
          /\ run (before ++ call_shutdown :: after) f
            = (inr tt, state_of (run after s),
               trace_of (run (before ++ [call_shutdown]) f) ++ calls)
          /\ shuttingDown (state_of (run after s)) = true
          /\ quiet calls).
Proof.
  split; [by rewrite shutdown_eq|]. split; [by rewrite !shutdown_eq|]. split.
  - intros connector reason. by rewrite shutdown_eq.
  - intros before after.
    set (s0 := state_of (run before f)).
    assert (Hs : run (before ++ [call_shutdown]) f
                 = (inr tt, set_shuttingDown true s0,
                    trace_of (run before f) ++ trace_of (shutdown s0))).
    { unfold run. rewrite for_app by apply run_total. fold (run before) s0.
      simpl. unfold bind. rewrite shutdown_eq. simpl.
      unfold result, state_of, trace_of. simpl. by rewrite app_nil_r. }
    exists (set_shuttingDown true s0),
           (trace_of (run after (set_shuttingDown true s0))).
    destruct (run_shuttingDown after (set_shuttingDown true s0) eq_refl)
      as [Hflag Hquiet].
    split; [by rewrite Hs|]. split; [|done].
    change (before ++ call_shutdown :: after)
      with (before ++ [call_shutdown] ++ after).
    rewrite app_assoc. unfold run at 1.
    rewrite for_app by apply run_total. fold (run (before ++ [call_shutdown])).
    rewrite Hs. unfold state_of at 1 2, trace_of at 1. simpl.
    fold (run after). by rewrite run_total.
Qed.
End Shutdown.

(** A connection is lost after [stopService] has shut the factory down,
    and the same loss without a shutdown. *)
Example shutdown_sample :
  let f := (IrcStatusFactory.__init__ "bb" None [] [] None ∅ false false true
              (Some 5) None true (Py.VBool false) None).1 in
  trace_of (IrcStatusFactory.run
    [IrcStatusFactory.call_buildProtocol "irc.example.org";
     IrcStatusFactory.call_shutdown;
     IrcStatusFactory.call_shutdown;
     IrcStatusFactory.call_clientConnectionLost "connector" "done"] f)
  = [quit "buildmaster reconfigured: bot disconnecting";
     quit "buildmaster reconfigured: bot disconnecting";
     log_msg "not scheduling reconnection attempt"]
  /\ trace_of (IrcStatusFactory.run
    [IrcStatusFactory.call_buildProtocol "irc.example.org";
     IrcStatusFactory.call_clientConnectionLost "connector" "done"] f)
  = [ThrottledClientFactory_clientConnectionLost "connector" "done"].
Proof. split; reflexivity. Qed.

(** ** Constructing the service *)

Section Construction.
Implicit Types (a : IRC.args) (v : Py.value).

(** What passes [v in (True, False)]: the booleans, and the integers
    that are equal to them. *)
Lemma contained_in_booleans v :
  Py.contained_in v booleans = true <->
  (exists x, v = Py.VBool x) \/ v = Py.VInt 1 \/ v = Py.VInt 0.
Proof.
  split.
  - destruct v as [|x|z|s];
      cbn [Py.contained_in booleans existsb Py.equals Z.b2z]; intros H.
    + discriminate.
    + eauto.
    + rewrite orb_false_r in H.
      apply orb_true_iff in H as [H|H]; apply Z.eqb_eq in H; subst; auto.
    + discriminate.
  - intros [[x ->]|[->| ->]]; [by destruct x|done|done].
Qed.

Lemma init_eq (have_ssl : bool) a :
  IRC.__init__ have_ssl a tt =
    if negb (Py.contained_in (IRC.arg_allowForce a) booleans)
    then (inl (Py.ConfigErrors "allowForce must be boolean, not %r"
                 (IRC.arg_allowForce a)), tt, [])
    else if negb (Py.contained_in (IRC.arg_allowShutdown a) booleans)
    then (inl (Py.ConfigErrors "allowShutdown must be boolean, not %r"
                 (IRC.arg_allowShutdown a)), tt, [])
    else if Py.truthy (IRC.arg_useSSL a)
    then if have_ssl
         then (inr (built a), tt, [SSLClient (IRC.arg_host a) (IRC.arg_port a)])
         else (inl (Py.RuntimeError "useSSL requires PyOpenSSL"), tt, [])
    else (inr (built a), tt, [TCPClient (IRC.arg_host a) (IRC.arg_port a)]).
Proof.
  unfold IRC.__init__, IRC.config_error. fold booleans.
  destruct (Py.contained_in (IRC.arg_allowForce a) booleans); [|reflexivity].
  destruct (Py.contained_in (IRC.arg_allowShutdown a) booleans); [|reflexivity].
  destruct (Py.truthy (IRC.arg_useSSL a)); [destruct have_ssl|]; reflexivity.
Qed.

(** C8, amended: a value of [allowForce] or [allowShutdown] that is
    equal to neither [True] nor [False], or [useSSL] without TLS support,
    makes the constructor raise before it has created a client or
    called anything else; the values that pass the test are the two
    booleans and the integers 1 and 0. *)
Theorem init_rejects (have_ssl : bool) a :
  Py.contained_in (IRC.arg_allowForce a) booleans = false
  \/ Py.contained_in (IRC.arg_allowShutdown a) booleans = false
  \/ (Py.truthy (IRC.arg_useSSL a) = true /\ have_ssl = false) ->
  (exists e, result (IRC.__init__ have_ssl a tt) = inl e)
  /\ trace_of (IRC.__init__ have_ssl a tt) = []
  /\ forall v, Py.contained_in v booleans = true <->
               (exists x, v = Py.VBool x) \/ v = Py.VInt 1 \/ v = Py.VInt 0.
Proof.
  intros H.
  assert (Hraise : exists e, IRC.__init__ have_ssl a tt = (inl e, tt, [])).
  { rewrite init_eq. destruct H as [H|[H|[H1 H2]]].
    - rewrite H. simpl. eauto.
    - rewrite H.
      destruct (Py.contained_in (IRC.arg_allowForce a) booleans); simpl; eauto.
    - rewrite H1, H2.
      destruct (Py.contained_in (IRC.arg_allowForce a) booleans);
        destruct (Py.contained_in (IRC.arg_allowShutdown a) booleans);
        simpl; eauto. }
  destruct Hraise as [e He]. rewrite He.
  split; [by exists e|]. split; [done|apply contained_in_booleans].
Qed.
End Construction.

Lemma init_rejects_witness :
  Py.contained_in (IRC.arg_allowForce
     (with_flags (Py.VStr "yes") (Py.VBool false) (Py.VBool false))) booleans = false
  /\ (exists e, result (IRC.__init__ true
        (with_flags (Py.VStr "yes") (Py.VBool false) (Py.VBool false)) tt) = inl e)
  /\ trace_of (IRC.__init__ true
        (with_flags (Py.VStr "yes") (Py.VBool false) (Py.VBool false)) tt) = [].
Proof.
  split; [reflexivity|].
  destruct (init_rejects true
              (with_flags (Py.VStr "yes") (Py.VBool false) (Py.VBool false)))
    as (He & Ht & _); [by left|].
  split; [exact He|exact Ht].
Defined.

(** C8 as the specification states it fails: the integer 1 is not a
    boolean, and the constructor accepts it. *)
Lemma init_accepts_integer_flag :
  ~ (forall (have_ssl : bool) (a : IRC.args),
       Py.is_bool (IRC.arg_allowForce a) = false
       \/ Py.is_bool (IRC.arg_allowShutdown a) = false
       \/ (Py.truthy (IRC.arg_useSSL a) = true /\ have_ssl = false) ->
       exists e, result (IRC.__init__ have_ssl a tt) = inl e).
Proof.
  intros H.
  destruct (H true (with_flags (Py.VInt 1) (Py.VBool false) (Py.VBool false)))
    as [e He]; [by left|].
  vm_compute in He. discriminate.
Qed.

Example init_samples :
  trace_of (IRC.__init__ false
    (with_flags (Py.VBool true) (Py.VBool false) (Py.VBool false)) tt)
    = [TCPClient "irc.example.org" 6667]
  /\ result (IRC.__init__ false
    (with_flags (Py.VBool true) (Py.VBool false) (Py.VBool true)) tt)
    = inl (Py.RuntimeError "useSSL requires PyOpenSSL")
  /\ trace_of (IRC.__init__ true
    (with_flags (Py.VBool true) (Py.VBool false) (Py.VBool true)) tt)
    = [SSLClient "irc.example.org" 6667]
  /\ result (IRC.__init__ true
    (with_flags (Py.VBool true) Py.VNone (Py.VBool false)) tt)
    = inl (Py.ConfigErrors "allowShutdown must be boolean, not %r" Py.VNone).
Proof. repeat split. Qed.

(** * Further properties *)

(** ** More on the registry *)

Section Invariant.
Variable inv : IrcStatusBot -> Prop.
Hypothesis inv_ext : forall b b' : IrcStatusBot,
  contacts b' = contacts b -> contacts_made b' = contacts_made b ->
  inv b -> inv b'.
Hypothesis inv_getContact : forall (u c : option string) (b : IrcStatusBot),
  inv b -> inv (state_of (IrcStatusBot.getContact u c b)).

Lemma contact_each_inv (nicks : list string) (b : IrcStatusBot) :
  inv b -> inv (state_of (contact_each nicks b)).
Proof.
  revert b. induction nicks as [|n nicks IH]; intros b H; [done|].
  rewrite contact_each_cons. unfold state_of at 1. simpl.
  apply IH, inv_getContact, H.
Qed.

Lemma privmsg_state (user channel message : string) (b : IrcStatusBot) :
  exists u c, state_of (IrcStatusBot.privmsg user channel message b)
              = state_of (IrcStatusBot.getContact u c b).
Proof.
  unfold IrcStatusBot.privmsg, bind, get, emit, ret. simpl.
  destruct (String.eqb channel (nickname b)).
  - exists (Some (Py.split_head "!" user)), None.
    rewrite getContact_eq. by destruct (contacts b !! _).
  - exists (Some (Py.split_head "!" user)), (Some channel).
    rewrite getContact_eq. destruct (contacts b !! _); simpl;
      repeat match goal with |- context [if ?c then _ else _] => destruct c end;
      reflexivity.
Qed.

(** Whatever the input, and whether or not its handler raises, the
    registry changes only through [getContact]. *)
Lemma dispatch_inv (i : IrcStatusBot.input) (b : IrcStatusBot) :
  inv b -> inv (state_of (IrcStatusBot.dispatch i b)).
Proof.
  intros H. destruct i; simpl.
  - unfold IrcStatusBot.connectionMade, IrcStatusBot.keepAliveCall_start,
      bind, get, put, emit, raise, state_of. simpl.
    destruct (running (keepAliveCall b)); simpl; by apply (inv_ext b).
  - rewrite connectionLost_eq. unfold state_of. simpl.
    destruct (running (keepAliveCall b)); by apply (inv_ext b).
  - unfold IrcStatusBot.keepAlive_fire, bind, get, emit, ret, state_of. simpl.
    by destruct (running (keepAliveCall b)).
  - destruct (privmsg_state user channel message b) as (u & c & E).
    destruct (privmsg_session user channel message b) as (d & Hd & _).
    pose proof (run_eta (IrcStatusBot.privmsg user channel message b)) as Er.
    rewrite Hd in Er. rewrite (bind_ok _ _ _ _ _ _ Er).
    unfold state_of at 1. simpl. unfold ret, state_of at 1. simpl.
    fold (state_of (IrcStatusBot.privmsg user channel message b)).
    rewrite E. by apply inv_getContact.
  - destruct (getContact_ok (Some (Py.split_head "!" user)) (Some channel) b)
      as (c & Hgc & _).
    assert (Hres : result (IrcStatusBot.getContact (Some (Py.split_head "!" user))
                             (Some channel) b) = inr c) by by rewrite Hgc.
    rewrite (action_eq b user channel data c Hres). by apply inv_getContact.
  - rewrite signedOn_eq. by apply contact_each_inv.
  - unfold IrcStatusBot.joined, bind, emit, ret. simpl.
    pose proof (inv_getContact None (Some channel) b H) as H'.
    rewrite getContact_eq in *. by destruct (contacts b !! _).
  - done.
  - done.
  - by rewrite groupChat_eq.
  - done.
  - done.
Qed.

Lemma run_inv (inputs : list IrcStatusBot.input) (b : IrcStatusBot) :
  inv b -> inv (state_of (IrcStatusBot.run inputs b)).
Proof.
  revert b. induction inputs as [|i inputs IH]; intros b H; [done|].
  unfold IrcStatusBot.run. simpl. fold (IrcStatusBot.run inputs).
  pose proof (dispatch_inv i b H) as Hi. unfold bind.
  destruct (IrcStatusBot.dispatch i b) as [[[e|[]] s1] t1]; [done|].
  specialize (IH s1 Hi).
  by destruct (IrcStatusBot.run inputs s1) as [[r2 s2] t2].
Qed.
End Invariant.

Lemma lower_char_idem (c : ascii) :
  Py.lower_char (Py.lower_char c) = Py.lower_char c.
Proof.
  destruct (decide (65 <= N_of_ascii c <= 90)%N) as [H|H].
  - apply PyFacts.lower_char_not_upper.
    rewrite (PyFacts.lower_char_upper c H). lia.
  - assert (E : Py.lower_char c = c).
    { unfold Py.lower_char.
      destruct (65 <=? N_of_ascii c)%N eqn:E1; [|done].
      destruct (N_of_ascii c <=? 90)%N eqn:E2; [|done].
      apply N.leb_le in E1, E2. lia. }
    by rewrite !E.
Qed.

Lemma lower_idem (s : string) : Py.lower (Py.lower s) = Py.lower s.
Proof. induction s as [|c s IH]; simpl; [done|]. by rewrite lower_char_idem, IH. Qed.




(** X2: no input removes or replaces a Contact: what the registry holds
    before a run, it holds after it, also when a handler raised. *)
Theorem registry_only_grows (inputs : list IrcStatusBot.input) (b : IrcStatusBot) :
  contacts b ⊆ contacts (state_of (IrcStatusBot.run inputs b)).
Proof.
  apply (run_inv (fun b' => contacts b ⊆ contacts b')).
  - intros b1 b2 Hc _. by rewrite Hc.
  - intros u c b1 H. etrans; [exact H|].
    apply map_subseteq_spec. intros k x. apply getContact_keeps.
  - done.
Qed.

(** ** More on the callbacks *)

(** X3: a private message, one whose target is the bot's own nickname,
    goes to the Contact of the sender alone, with its whole text: no
    prefix is asked for and none is cut off. *)
Theorem privmsg_private_whole_text
    (b : IrcStatusBot) (user channel message : string) :
  channel = nickname b ->
  exists contact,
    result (IrcStatusBot.getContact (Some (Py.split_head "!" user)) None b)
      = inr contact
    /\ IrcStatusBot.privmsg user channel message b
       = (inr (Some (handled contact message)),
          state_of (IrcStatusBot.getContact (Some (Py.split_head "!" user)) None b),
          trace_of (IrcStatusBot.getContact (Some (Py.split_head "!" user)) None b)
            ++ [handleMessage contact message]).
Proof.
  intros ->.
  destruct (getContact_ok (Some (Py.split_head "!" user)) None b)
    as (contact & Hgc & _).
  assert (Hres : result (IrcStatusBot.getContact (Some (Py.split_head "!" user))
                           None b) = inr contact) by by rewrite Hgc.
  exists contact. split; [done|]. by apply privmsg_private_eq.
Qed.

Lemma privmsg_private_whole_text_witness :
  "bb" = nickname bb
  /\ IrcStatusBot.privmsg "alice!~a@example.org" "bb" "bb: status" bb
     = (inr (Some (handled (mkContact 0 (Some "alice") None) "bb: status")),
        register (None, Some "alice") (mkContact 0 (Some "alice") None) bb,
        [subscribed (mkContact 0 (Some "alice") None);
         handleMessage (mkContact 0 (Some "alice") None) "bb: status"]).
Proof.
  split; [reflexivity|].
  destruct (privmsg_private_whole_text bb "alice!~a@example.org" "bb" "bb: status")
    as (c & Hc & Hp); [reflexivity|].
  rewrite Hp. vm_compute in Hc. injection Hc as <-. reflexivity.
Defined.

Lemma dispatch_inbound (i : IrcStatusBot.input) (b : IrcStatusBot) :
  inbound i = true ->
  result (IrcStatusBot.dispatch i b) = inr tt
  /\ Forall (fun c => to_contact_or_log c = true)
       (trace_of (IrcStatusBot.dispatch i b)).
Proof.
  intros Hi. destruct i; try discriminate; simpl.
  - unfold IrcStatusBot.privmsg, bind, get, emit, ret. simpl.
    destruct (String.eqb channel (nickname b));
      rewrite getContact_eq; destruct (contacts b !! _); simpl;
      repeat match goal with |- context [if ?c then _ else _] => destruct c end;
      simpl; (split; [reflexivity|repeat constructor]).
  - unfold IrcStatusBot.action, bind, get, emit, ret. simpl.
    rewrite getContact_eq; destruct (contacts b !! _); simpl;
      repeat match goal with |- context [if ?c then _ else _] => destruct c end;
      simpl; (split; [reflexivity|repeat constructor]).
  - unfold IrcStatusBot.joined, bind, emit, ret. simpl.
    rewrite getContact_eq; destruct (contacts b !! _); simpl;
      (split; [reflexivity|repeat constructor]).
  - split; [reflexivity|repeat constructor].
  - split; [reflexivity|repeat constructor].
Qed.

Lemma run_inbound (inputs : list IrcStatusBot.input) (b : IrcStatusBot) :
  forallb inbound inputs = true ->
  result (IrcStatusBot.run inputs b) = inr tt
  /\ Forall (fun c => to_contact_or_log c = true)
       (trace_of (IrcStatusBot.run inputs b)).
Proof.
  revert b. induction inputs as [|i inputs IH]; intros b H.
  - split; [done|constructor].
  - simpl in H. apply andb_true_iff in H as [Hi H].
    destruct (dispatch_inbound i b Hi) as [Hr Hq].
    unfold IrcStatusBot.run. simpl. fold (IrcStatusBot.run inputs).
    pose proof (run_eta (IrcStatusBot.dispatch i b)) as E. rewrite Hr in E.
    rewrite (bind_ok _ _ _ _ _ _ E).
    destruct (IH (state_of (IrcStatusBot.dispatch i b)) H) as [Hr' Hq'].
    split; [done|]. by apply Forall_app.
Qed.

Lemma run_part_or_kick (inputs : list IrcStatusBot.input) (b : IrcStatusBot) :
  forallb part_or_kick inputs = true ->
  exists lines,
    IrcStatusBot.run inputs b = (inr tt, b, log <$> lines)
    /\ length lines = length inputs.
Proof.
  induction inputs as [|i inputs IH]; intros H.
  - by exists [].
  - simpl in H. apply andb_true_iff in H as [Hi H].
    destruct (IH H) as (lines & E & Hlen).
    unfold IrcStatusBot.run in *. simpl.
    destruct i; try discriminate; simpl;
      unfold bind, IrcStatusBot.left, IrcStatusBot.kickedFrom, emit; rewrite E;
      eexists (_ :: lines); (split; [reflexivity|simpl; by rewrite Hlen]).
Qed.

(** X4: in the callbacks for what the server sends, the bot itself
    sends nothing: every call its own code makes there is a log line,
    the construction of a Contact or the hand-over of the text to a
    Contact, never a notice, message, action, join or ping of its own
    (what the Contact then does with the text, replies included, is
    the Contact's own doing, in buildbot/status/words.py). A part or a kick is not even handed to a
    Contact: each is logged in one line and leaves the bot as it was, so
    nothing rejoins the channel. *)
Theorem inbound_only_to_contacts (inputs : list IrcStatusBot.input) (b : IrcStatusBot) :
  forallb inbound inputs = true ->
  Forall (fun c => to_contact_or_log c = true) (trace_of (IrcStatusBot.run inputs b))
  /\ (forall target payload channel key,
        (notice target payload ∉ trace_of (IrcStatusBot.run inputs b))
        /\ (msg target payload ∉ trace_of (IrcStatusBot.run inputs b))
        /\ (describe target payload ∉ trace_of (IrcStatusBot.run inputs b))
        /\ (join channel key ∉ trace_of (IrcStatusBot.run inputs b))
        /\ (ping target ∉ trace_of (IrcStatusBot.run inputs b)))
  /\ (forallb part_or_kick inputs = true ->
      result (IrcStatusBot.run inputs b) = inr tt
      /\ state_of (IrcStatusBot.run inputs b) = b
      /\ Forall (fun c => is_log c = true) (trace_of (IrcStatusBot.run inputs b))
      /\ length (trace_of (IrcStatusBot.run inputs b)) = length inputs).
Proof.
  intros H. destruct (run_inbound inputs b H) as [_ Hall].
  split; [exact Hall|]. split.
  - rewrite Forall_forall in Hall.
    intros target payload channel key.
    repeat split; intros Hin; apply Hall in Hin; discriminate.
  - intros Hpk. destruct (run_part_or_kick inputs b Hpk) as (lines & E & Hlen).
    rewrite E. unfold result, state_of, trace_of. simpl.
    split; [done|]. split; [done|]. split.
    + apply Forall_fmap. by apply Forall_true.
    + by rewrite length_fmap.
Qed.

Lemma inbound_only_to_contacts_witness :
  forallb inbound
    [IrcStatusBot.on_joined "#dev";
     IrcStatusBot.on_privmsg "alice" "#dev" "bb: status";
     IrcStatusBot.on_kickedFrom "#dev" "alice" "bye"] = true
  /\ Forall (fun c => to_contact_or_log c = true)
       (trace_of (IrcStatusBot.run
          [IrcStatusBot.on_joined "#dev";
           IrcStatusBot.on_privmsg "alice" "#dev" "bb: status";
           IrcStatusBot.on_kickedFrom "#dev" "alice" "bye"] bb)).
Proof.
  split; [reflexivity|].
  apply (inbound_only_to_contacts _ bb). reflexivity.
Defined.

Lemma contains_bang_lower (s : string) :
  Py.contains "!" (Py.lower s) = Py.contains "!" s.
Proof.
  induction s as [|c s IH]; [done|].
  change (Py.lower (String c s)) with (String (Py.lower_char c) (Py.lower s)).
  rewrite !PyFacts.contains_char_cons, IH. f_equal.
  destruct (decide (65 <= N_of_ascii c <= 90)%N) as [H|H].
  - assert (Ascii.eqb "!" c = false) as ->.
    { apply Ascii.eqb_neq. intros <-.
      change (N_of_ascii "!") with 33%N in H. lia. }
    apply Ascii.eqb_neq. intros E.
    pose proof (PyFacts.lower_char_upper c H) as Hn. rewrite <- E in Hn.
    change (N_of_ascii "!") with 33%N in Hn. lia.
  - assert (E : Py.lower_char c = c); [|by rewrite E].
    unfold Py.lower_char.
    destruct (65 <=? N_of_ascii c)%N eqn:E1; [|done].
    destruct (N_of_ascii c <=? 90)%N eqn:E2; [|done].
    apply N.leb_le in E1, E2. lia.
Qed.

Lemma split_head_clean (sep : ascii) (s : string) :
  Py.contains (String sep "") (Py.split_head sep s) = false.
Proof.
  induction s as [|c s IH]; [done|]. simpl Py.split_head.
  destruct (Ascii.eqb c sep) eqn:E; [done|].
  rewrite PyFacts.contains_char_cons, IH, Ascii.eqb_sym, E. done.
Qed.

(** X5: the Contact that [privmsg] and [action] resolve for a sender is
    filed under the part of the sender before its first exclamation
    mark, in lower case: a name that holds no exclamation mark and that
    lowering leaves as it is. For a private message the channel of the
    key is absent, otherwise it is the channel in lower case. *)
Theorem sender_key_clean (b : IrcStatusBot) (user channel text : string) :
  exists name,
    name = Py.lower (Py.split_head "!" user)
    /\ Py.contains "!" name = false
    /\ Py.lower name = name
    /\ is_Some (contacts (state_of (IrcStatusBot.privmsg user channel text b))
                 !! (if String.eqb channel (nickname b) then None
                     else IrcStatusBot.lower_if_set (Some channel),
                     Some name))
    /\ is_Some (contacts (state_of (IrcStatusBot.action user channel text b))
                 !! (IrcStatusBot.lower_if_set (Some channel), Some name)).
Proof.
  exists (Py.lower (Py.split_head "!" user)).
  assert (Hkey : forall c, key (Some (Py.split_head "!" user)) c
                 = (IrcStatusBot.lower_if_set c, Some (Py.lower (Py.split_head "!" user)))).
  { intros c. unfold key, IrcStatusBot.lower_if_set at 2.
    by destruct (Py.split_head "!" user). }
  split; [done|]. split; [by rewrite contains_bang_lower, split_head_clean|].
  split; [apply lower_idem|]. split.
  - destruct (String.eqb channel (nickname b)) eqn:E.
    + apply String.eqb_eq in E as ->.
      destruct (getContact_ok (Some (Py.split_head "!" user)) None b)
        as (contact & Hgc & Hreg & _).
      assert (Hres : result (IrcStatusBot.getContact (Some (Py.split_head "!" user))
                               None b) = inr contact) by by rewrite Hgc.
      rewrite (privmsg_private_eq b user text contact Hres).
      rewrite Hkey in Hreg. by eexists.
    + destruct (getContact_ok (Some (Py.split_head "!" user)) (Some channel) b)
        as (contact & Hgc & Hreg & _).
      assert (Hres : result (IrcStatusBot.getContact (Some (Py.split_head "!" user))
                               (Some channel) b) = inr contact) by by rewrite Hgc.
      rewrite (privmsg_channel_eq b user channel text E contact Hres).
      rewrite Hkey in Hreg. destruct (addressed b text); by eexists.
  - destruct (getContact_ok (Some (Py.split_head "!" user)) (Some channel) b)
      as (contact & Hgc & Hreg & _).
    assert (Hres : result (IrcStatusBot.getContact (Some (Py.split_head "!" user))
                             (Some channel) b) = inr contact) by by rewrite Hgc.
    rewrite (action_eq b user channel text contact Hres).
    rewrite Hkey in Hreg. by eexists.
Qed.

Lemma contact_each_registered (nicks : list string) (b : IrcStatusBot) :
  (forall n, n ∈ nicks -> is_Some (contacts b !! key (Some n) None)) ->
  contact_each nicks b = (inr tt, b, []).
Proof.
  induction nicks as [|n nicks IH]; intros H; [done|].
  rewrite contact_each_cons, getContact_eq.
  destruct (H n) as [c Hc]; [by left|]. rewrite Hc.
  change (state_of (inr c, b, [] : list call)) with b. simpl.
  rewrite IH; [done|]. intros m Hm. apply H. by right.
Qed.

(** X6: signing on again constructs nothing: after one [signedOn] a
    second one sends the identification and the joins once more, in the
    same order, but finds every private-message target in the registry
    and leaves the bot as it is. *)
Theorem signedOn_again (b : IrcStatusBot) :
  IrcStatusBot.signedOn (state_of (IrcStatusBot.signedOn b))
  = (inr tt, state_of (IrcStatusBot.signedOn b),
     (if Py.truthy_str (password b)
      then [msg "Nickserv" ("IDENTIFY " +:+ default "" (password b))]
      else [])
     ++ ((fun c => join (IrcStatusBot.channel_and_key c).1
                        (IrcStatusBot.channel_and_key c).2) <$> channels b)).
Proof.
  destruct (contact_each_ok (pm_to_nicks b) b)
    as (_ & (_ & Hpw & Hch & Hpm & _) & _ & _ & Hall & _).
  assert (Hs : state_of (IrcStatusBot.signedOn b)
               = state_of (contact_each (pm_to_nicks b) b)) by by rewrite signedOn_eq.
  rewrite Hs, signedOn_eq, Hpw, Hch, Hpm.
  rewrite (contact_each_registered _ _ Hall).
  unfold result, state_of at 1, trace_of. simpl. by rewrite app_nil_r.
Qed.

(** X7: [joined] logs the channel and sees to the Contact of the channel
    itself, filed under the channel in lower case with no user; being
    told again that the same channel was joined, in whatever case, only
    logs. *)
Theorem joined_once (b : IrcStatusBot) (channel again : string) :
  case_variants channel again ->
  let b1 := state_of (IrcStatusBot.joined channel b) in
  result (IrcStatusBot.joined channel b) = inr tt
  /\ is_Some (contacts b1 !! (IrcStatusBot.lower_if_set (Some channel), None))
  /\ IrcStatusBot.joined again b1
     = (inr tt, b1, [log ("I have joined " +:+ again)]).
Proof.
  intros Hv b1.
  assert (Hk : key None (Some again) = key None (Some channel)).
  { unfold key. f_equal. symmetry. apply lower_if_set_variants.
    by constructor. }
  assert (Hj : forall c s, IrcStatusBot.joined c s
            = (inr tt, state_of (IrcStatusBot.getContact None (Some c) s),
               log ("I have joined " +:+ c)
                 :: trace_of (IrcStatusBot.getContact None (Some c) s))).
  { intros c s. unfold IrcStatusBot.joined, bind, emit, ret. simpl.
    rewrite getContact_eq. by destruct (contacts s !! _). }
  destruct (getContact_ok None (Some channel) b) as (c & _ & Hreg & _).
  assert (Hb1 : b1 = state_of (IrcStatusBot.getContact None (Some channel) b))
    by (unfold b1; by rewrite Hj).
  split; [by rewrite Hj|]. split.
  - rewrite Hb1. by eexists.
  - rewrite Hj, getContact_eq, Hk, Hb1, Hreg. done.
Qed.

Lemma joined_once_witness :
  case_variants "Alice" "alice"
  /\ IrcStatusBot.joined "alice" (state_of (IrcStatusBot.joined "Alice" bb))
     = (inr tt, state_of (IrcStatusBot.joined "Alice" bb),
        [log "I have joined alice"]).
Proof.
  split; [apply Alice_alice|].
  apply (joined_once bb "Alice" "alice"), Alice_alice.
Defined.

(** ** More on the factory and the service *)

Lemma handle_forwards (e : IrcStatusFactory.event) (f : IrcStatusFactory.t) :
  IrcStatusFactory.shuttingDown f = false -> is_shutdown e = false ->
  result (IrcStatusFactory.handle e f) = inr tt
  /\ IrcStatusFactory.shuttingDown (state_of (IrcStatusFactory.handle e f)) = false
  /\ trace_of (IrcStatusFactory.handle e f) = option_list (forwarded e).
Proof.
  intros Hf He. destruct e; try discriminate; simpl.
  - done.
  - unfold IrcStatusFactory.clientConnectionLost, bind, get. simpl. by rewrite Hf.
  - unfold IrcStatusFactory.clientConnectionFailed, bind, get. simpl. by rewrite Hf.
  - done.
Qed.

(** X8: until [shutdown] is called the factory hands every lost and
    every failed connection to [ThrottledClientFactory], with the
    connector and the reason it was given, in the order of the events,
    and calls nothing else; building a protocol does not change that. *)
Theorem reconnects_until_shutdown
    (es : list IrcStatusFactory.event) (f : IrcStatusFactory.t) :
  IrcStatusFactory.shuttingDown f = false ->
  existsb is_shutdown es = false ->
  IrcStatusFactory.shuttingDown (state_of (IrcStatusFactory.run es f)) = false
  /\ trace_of (IrcStatusFactory.run es f) = omap forwarded es.
Proof.
  revert f. induction es as [|e es IH]; intros f Hf Hes; [done|].
  simpl in Hes. apply orb_false_iff in Hes as [He Hes].
  destruct (handle_forwards e f Hf He) as (Hr & Hf' & Ht).
  unfold IrcStatusFactory.run. simpl. fold (IrcStatusFactory.run es).
  pose proof (run_eta (IrcStatusFactory.handle e f)) as E. rewrite Hr in E.
  rewrite (bind_ok _ _ _ _ _ _ E).
  destruct (IH _ Hf' Hes) as [Hf2 Ht2].
  split; [done|]. unfold trace_of at 1. simpl. rewrite Ht, Ht2.
  by destruct (forwarded e).
Qed.

Lemma reconnects_until_shutdown_witness :
  IrcStatusFactory.shuttingDown (IRC.f (built (with_flags (Py.VBool false)
     (Py.VBool false) (Py.VBool false)))) = false
  /\ existsb is_shutdown
       [IrcStatusFactory.call_clientConnectionFailed "connector" "refused";
        IrcStatusFactory.call_buildProtocol "irc.example.org";
        IrcStatusFactory.call_clientConnectionLost "connector" "reset"] = false
  /\ trace_of (IrcStatusFactory.run
       [IrcStatusFactory.call_clientConnectionFailed "connector" "refused";
        IrcStatusFactory.call_buildProtocol "irc.example.org";
        IrcStatusFactory.call_clientConnectionLost "connector" "reset"]
       (IRC.f (built (with_flags (Py.VBool false) (Py.VBool false) (Py.VBool false)))))
     = [ThrottledClientFactory_clientConnectionFailed "connector" "refused";
        ThrottledClientFactory_clientConnectionLost "connector" "reset"].
Proof.
  split; [reflexivity|]. split; [reflexivity|].
  apply reconnects_until_shutdown; reflexivity.
Defined.

Lemma stopService_eq (s : IRC.t) :
  IRC.stopService s
  = (inr (returned_by StatusReceiverMultiService_stopService),
     IRC.set_f (IrcStatusFactory.set_shuttingDown true (IRC.f s)) s,
     match IrcStatusFactory.p (IRC.f s) with
     | Some _ => [by_factory (quit "buildmaster reconfigured: bot disconnecting")]
     | None => []
     end ++ [StatusReceiverMultiService_stopService]).
Proof.
  unfold IRC.stopService, bind, emit, ret. rewrite shutdown_eq. simpl.
  by destruct (IrcStatusFactory.p (IRC.f s)).
Qed.

(** X9: [stopService] shuts the factory of the service down, then calls
    [stopService] of the base class and returns what that returns; of
    the service it changes nothing but the flag of the factory. The
    farewell is sent exactly when the factory holds a protocol, so for
    a service that was only constructed the base class is all that is
    called; and whatever happens to the factory afterwards, no
    reconnection is scheduled. *)
Theorem stopService_stops_factory (s : IRC.t) :
  IRC.stopService s
  = (inr (returned_by StatusReceiverMultiService_stopService),
     IRC.set_f (IrcStatusFactory.set_shuttingDown true (IRC.f s)) s,
     match IrcStatusFactory.p (IRC.f s) with
     | Some _ => [by_factory (quit "buildmaster reconfigured: bot disconnecting")]
     | None => []
     end ++ [StatusReceiverMultiService_stopService])
  /\ (forall a, trace_of (IRC.stopService (built a))
                = [StatusReceiverMultiService_stopService])
  /\ forall es,
       quiet (trace_of (IrcStatusFactory.run es
                          (IRC.f (state_of (IRC.stopService s))))).
Proof.
  split; [apply stopService_eq|]. split.
  - intros a. by rewrite stopService_eq.
  - intros es. rewrite stopService_eq. by apply run_shuttingDown.
Qed.

(** X10: the constructor of the service succeeds exactly when both flags
    pass the test against [(True, False)] and TLS is there if it is asked
    for. It then returns the service with a factory that is not shutting
    down and holds no protocol, and has created one client for the host
    and the port: an SSL client if [useSSL] is true, a TCP client if
    not. Nothing is logged, also when the deprecated [categories] is
    given, which is used for the tags only when [tags] is empty; the
    factory gets the tags of the service, or [None] if they are empty. *)
Theorem init_succeeds (have_ssl : bool) (a : IRC.args) :
  ((exists s, result (IRC.__init__ have_ssl a tt) = inr s) <->
   Py.contained_in (IRC.arg_allowForce a) booleans = true
   /\ Py.contained_in (IRC.arg_allowShutdown a) booleans = true
   /\ (Py.truthy (IRC.arg_useSSL a) = true -> have_ssl = true))
  /\ (forall s, result (IRC.__init__ have_ssl a tt) = inr s ->
        s = built a
        /\ trace_of (IRC.__init__ have_ssl a tt) = [client_of a]
        /\ IrcStatusFactory.shuttingDown (IRC.f s) = false
        /\ IrcStatusFactory.p (IRC.f s) = None
        /\ IRC.tags s = or_else (IRC.arg_tags a) (IRC.arg_categories a)
        /\ IrcStatusFactory.tags (IRC.f s) = or_else (IRC.tags s) None).
Proof.
  rewrite init_eq. unfold client_of, result, trace_of.
  destruct (Py.contained_in (IRC.arg_allowForce a) booleans);
    destruct (Py.contained_in (IRC.arg_allowShutdown a) booleans);
    destruct (Py.truthy (IRC.arg_useSSL a)); destruct have_ssl; simpl;
    (split; [split|]).
  all: try (intros [s Hs]; discriminate).
  all: try (intros s Hs; discriminate).
  all: try (intros (H1 & H2 & H3); discriminate).
  all: try (intros (H1 & H2 & H3); specialize (H3 eq_refl); discriminate).
  all: try (intros _; by repeat split).
  all: try (intros _; by eexists).
  all: intros s Hs; injection Hs as <-; repeat split; reflexivity.
Qed.

Lemma init_succeeds_witness :
  result (IRC.__init__ false
            (with_flags (Py.VInt 1) (Py.VBool false) (Py.VBool false)) tt)
    = inr (built (with_flags (Py.VInt 1) (Py.VBool false) (Py.VBool false)))
  /\ trace_of (IRC.__init__ false
            (with_flags (Py.VInt 1) (Py.VBool false) (Py.VBool false)) tt)
    = [TCPClient "irc.example.org" 6667].
Proof.
  destruct (init_succeeds false
              (with_flags (Py.VInt 1) (Py.VBool false) (Py.VBool false)))
    as [_ H].
  destruct (H _ eq_refl) as (_ & Ht & _).
  split; [reflexivity|exact Ht].
Defined.

Lemma truthy_passed (v : Py.value) :
  Py.contained_in v booleans = true ->
  Py.truthy v = Py.equals v (Py.VBool true).
Proof.
  intros [[[] ->]|[->| ->]]%contained_in_booleans; reflexivity.
Qed.

(** X11: [setServiceParent] first makes the parent the status of the
    factory; then, exactly when [allowForce] is true, it asks for the
    control interface of the master and makes it the control of the
    factory; then it calls [setServiceParent] of the base class and
    returns what that returns. For a flag that passed the test of the
    constructor, being true is being equal to [True]. The shutdown flag
    and the protocol of the factory are not touched. *)
Theorem setServiceParent_wires_control (s : IRC.t) (parent master : string) :
  Py.contained_in (IRC.allowForce s) booleans = true ->
  exists f',
    IRC.setServiceParent parent master s
      = (inr (returned_by (StatusReceiverMultiService_setServiceParent parent)),
         IRC.set_f f' s,
         (if Py.equals (IRC.allowForce s) (Py.VBool true)
          then [IControl master] else [])
         ++ [StatusReceiverMultiService_setServiceParent parent])
    /\ IrcStatusFactory.status f' = Some parent
    /\ IrcStatusFactory.control f'
       = (if Py.equals (IRC.allowForce s) (Py.VBool true) then Some master
          else IrcStatusFactory.control (IRC.f s))
    /\ IrcStatusFactory.shuttingDown f' = IrcStatusFactory.shuttingDown (IRC.f s)
    /\ IrcStatusFactory.p f' = IrcStatusFactory.p (IRC.f s).
Proof.
  intros H. rewrite <- (truthy_passed _ H).
  unfold IRC.setServiceParent, bind, get, put, emit, ret. simpl.
  destruct (Py.truthy (IRC.allowForce s)); simpl;
    eexists; (split; [reflexivity|by repeat split]).
Qed.

Lemma setServiceParent_wires_control_witness :
  Py.contained_in (IRC.allowForce
     (built (with_flags (Py.VInt 1) (Py.VBool false) (Py.VBool false)))) booleans = true
  /\ trace_of (IRC.setServiceParent "status" "master"
        (built (with_flags (Py.VInt 1) (Py.VBool false) (Py.VBool false))))
     = [IControl "master"; StatusReceiverMultiService_setServiceParent "status"].
Proof.
  split; [reflexivity|].
  destruct (setServiceParent_wires_control
              (built (with_flags (Py.VInt 1) (Py.VBool false) (Py.VBool false)))
              "status" "master" eq_refl) as (f' & E & _).
  rewrite E. reflexivity.
Defined.

(** ** More on the outbound messages *)

Lemma encode_char_length (cp : Z) :
  (1 <= length (Py.encode_char cp) <= 4)%nat.
Proof.
  unfold Py.encode_char.
  repeat match goal with |- context [if ?c then _ else _] => destruct c end;
    simpl; lia.
Qed.

Lemma length_string_of_list (l : list ascii) (s : string) :
  String.length (string_of_list_ascii l +:+ s) = (length l + String.length s)%nat.
Proof.
  induction l as [|c l IH]; [done|].
  simpl string_of_list_ascii. rewrite PyFacts.append_cons. simpl. by rewrite IH.
Qed.

Lemma encode_length (text : Py.unicode) :
  (length text <= String.length (Py.encode text) <= 4 * length text)%nat.
Proof.
  induction text as [|cp text IH]; simpl; [lia|].
  rewrite length_string_of_list.
  pose proof (encode_char_length cp). lia.
Qed.

Lemma byte_ascii (cp : Z) :
  0 <= cp < 128 -> Py.encode_char cp = [ascii_of_N (Z.to_N cp)].
Proof.
  intros H. unfold Py.encode_char, Py.byte.
  destruct (cp <? 0) eqn:E1; [apply Z.ltb_lt in E1; lia|].
  destruct (1114111 <? cp) eqn:E2; [apply Z.ltb_lt in E2; lia|].
  destruct (cp <? 128) eqn:E3; [|apply Z.ltb_ge in E3; lia].
  simpl. change 255 with (Z.ones 8).
  rewrite Z.land_ones by lia. rewrite Z.mod_small; [done|].
  change (2 ^ 8) with 256. lia.
Qed.

Lemma encode_ascii (text : Py.unicode) :
  Forall (fun cp => 0 <= cp < 128) text ->
  Py.encode text = string_of_list_ascii ((fun cp => ascii_of_N (Z.to_N cp)) <$> text).
Proof.
  induction 1 as [|cp text Hcp _ IH]; [done|].
  simpl. rewrite (byte_ascii cp Hcp), IH. simpl.
  by rewrite PyFacts.append_cons, PyFacts.append_nil.
Qed.

(** X12: [chat] and [groupDescribe] send their text whatever
    [noticeOnChannel] says, as one message to the user and one action
    on the channel, and leave the bot as it is. The text goes out in
    UTF-8: one to four bytes for each code point, and ASCII text byte
    for byte. *)
Theorem chat_and_describe (b : IrcStatusBot) (target : string) (text : Py.unicode) :
  IrcStatusBot.chat target text b = (inr tt, b, [msg target (Py.encode text)])
  /\ IrcStatusBot.groupDescribe target text b
     = (inr tt, b, [describe target (Py.encode text)])
  /\ (length text <= String.length (Py.encode text) <= 4 * length text)%nat
  /\ (Forall (fun cp => 0 <= cp < 128) text ->
      Py.encode text
        = string_of_list_ascii ((fun cp => ascii_of_N (Z.to_N cp)) <$> text)).
Proof.
  split; [done|]. split; [done|]. split; [apply encode_length|apply encode_ascii].
Qed.

Lemma chat_and_describe_witness :
  Forall (fun cp => 0 <= cp < 128) [104; 105]
  /\ IrcStatusBot.chat "alice" [104; 105] bb = (inr tt, bb, [msg "alice" "hi"]).
Proof.
  assert (H : Forall (fun cp => 0 <= cp < 128) [104; 105])
    by (repeat constructor; lia).
  split; [exact H|].
  destruct (chat_and_describe bb "alice" [104; 105]) as (Hc & _ & _ & Ha).
  rewrite Hc, (Ha H). reflexivity.
Defined.
